(** * UAConsole: the recursive address-space browser of [uaconsole.c]

    A shallow embedding of [browseAndReadNode] (uaconsole.c, lines 101-228):
    the per-node attribute fetch, the indentation buffer, the NodeId text,
    the rendering of a variable's value and the depth-first descent through
    the forward references of a browse response.

    The OPC UA client is a collaborator reached through four round trips;
    its state is threaded explicitly, and everything the function does that
    can be observed from outside (round trips and [printf] calls) is
    recorded, in order, in a trace of events. *)

From Stdlib Require Import ZArith List String Ascii Bool Lia.
Import ListNotations.

Local Open Scope string_scope.
Local Open Scope Z_scope.

(** ** C strings and the [printf] conversions the program uses *)

Module CText.

(** The first [n] characters of a text: what fits in a bounded buffer. *)
Fixpoint truncate (n : nat) (s : string) : string :=
  match n, s with
  | S n', String c s' => String c (truncate n' s')
  | _, _ => EmptyString
  end.

(** [snprintf(buf, size, ...)] stores at most [size - 1] characters. *)
Definition snprintf (size : nat) (formatted : string) : string :=
  truncate (size - 1) formatted.

(** [strncat(dest, src, n)] appends at most [n] characters of [src]. *)
Definition strncat (dest src : string) (n : nat) : string :=
  dest ++ truncate n src.

Definition NUL : ascii := Ascii.zero.

(** The characters a [%s] conversion prints from a character array: those
    before the first NUL. *)
Fixpoint until_nul (s : string) : string :=
  match s with
  | EmptyString => EmptyString
  | String c s' => if Ascii.eqb c NUL then EmptyString else String c (until_nul s')
  end.

(** [%.*s] with precision [n]: at most [n] characters, stopping at a NUL. *)
Definition fmt_prec_s (n : nat) (data : string) : string :=
  until_nul (truncate n data).

Definition spaces (n : nat) : string := string_of_list_ascii (repeat " "%char n).

Definition digit_char (d : Z) : ascii :=
  nth (Z.to_nat d) (list_ascii_of_string "0123456789ABCDEF") "?"%char.

(** The digits of [n] in base [base], most significant first, prepended to
    [acc]; [fuel] bounds the number of digits. *)
Fixpoint digits (fuel : nat) (base n : Z) (acc : string) : string :=
  match fuel with
  | O => acc
  | S fuel' =>
      let acc' := String (digit_char (n mod base)) acc in
      if n / base =? 0 then acc' else digits fuel' base (n / base) acc'
  end.

(** The argument of [%u] and [%X] is an [unsigned int]: 32 bits. *)
Definition to_unsigned (n : Z) : Z := n mod 2 ^ 32.

(** [%u]: a 32-bit value has at most ten decimal digits. *)
Definition fmt_u (n : Z) : string := digits 10 10 (to_unsigned n) "".

(** A minimum field width with the [0] flag: zeros on the left. *)
Definition zero_pad (width : nat) (s : string) : string :=
  string_of_list_ascii (repeat "0"%char (width - String.length s)) ++ s.

(** [%04u], [%02u]. *)
Definition fmt_0u (width : nat) (n : Z) : string := zero_pad width (fmt_u n).

(** [%08X]: a 32-bit value has at most eight hexadecimal digits. *)
Definition fmt_08X (n : Z) : string := zero_pad 8 (digits 8 16 (to_unsigned n) "").

(** The value a numeral denotes in base [base]: digits 0-9, then A-F. *)
Definition digit_value (c : ascii) : Z :=
  let code := Z.of_nat (nat_of_ascii c) in
  if code <? 58 then code - 48 else code - 55.

Fixpoint numeral_value_from (base acc : Z) (s : string) : Z :=
  match s with
  | EmptyString => acc
  | String c s' => numeral_value_from base (base * acc + digit_value c) s'
  end.

Definition decimal_value (s : string) : Z := numeral_value_from 10 0 s.
Definition hex_value (s : string) : Z := numeral_value_from 16 0 s.

End CText.

Import CText.

(** ** The OPC UA data the function touches *)

Definition UA_StatusCode := Z.
Definition UA_STATUSCODE_GOOD : UA_StatusCode := 0.

(** [UA_String]: a counted sequence of bytes, which may hold NUL bytes. *)
Definition UA_String := string.

Inductive UA_Identifier : Type :=
| Id_Numeric (numeric : Z)
| Id_String (str : UA_String)
| Id_Guid (guid : list Z)
| Id_ByteString (byteString : UA_String).

Inductive UA_NodeIdType : Type :=
| UA_NODEIDTYPE_NUMERIC
| UA_NODEIDTYPE_STRING
| UA_NODEIDTYPE_GUID
| UA_NODEIDTYPE_BYTESTRING.

Record UA_NodeId : Type := mkNodeId {
  namespaceIndex : Z;
  identifier : UA_Identifier
}.

Definition identifierType (n : UA_NodeId) : UA_NodeIdType :=
  match identifier n with
  | Id_Numeric _ => UA_NODEIDTYPE_NUMERIC
  | Id_String _ => UA_NODEIDTYPE_STRING
  | Id_Guid _ => UA_NODEIDTYPE_GUID
  | Id_ByteString _ => UA_NODEIDTYPE_BYTESTRING
  end.

Definition UA_NODEID_NUMERIC (ns i : Z) : UA_NodeId := mkNodeId ns (Id_Numeric i).
Definition UA_NODEID_STRING (ns : Z) (s : string) : UA_NodeId := mkNodeId ns (Id_String s).

Definition UA_NS0ID_OBJECTSFOLDER : Z := 85.

Inductive UA_NodeClass : Type :=
| UA_NODECLASS_UNSPECIFIED
| UA_NODECLASS_OBJECT
| UA_NODECLASS_VARIABLE
| UA_NODECLASS_METHOD
| UA_NODECLASS_OBJECTTYPE
| UA_NODECLASS_VARIABLETYPE
| UA_NODECLASS_REFERENCETYPE
| UA_NODECLASS_DATATYPE
| UA_NODECLASS_VIEW.

Record UA_QualifiedName : Type := mkQualifiedName {
  qn_namespaceIndex : Z;
  name : UA_String
}.

(** [UA_Float]: the 32 bits of an IEEE-754 single; [UA_DateTime]: a count of
    100 ns ticks. *)
Definition UA_Float := Z.
Definition UA_DateTime := Z.

Record UA_DateTimeStruct : Type := mkDateTimeStruct {
  dts_sec : Z;
  dts_min : Z;
  dts_hour : Z;
  dts_day : Z;
  dts_month : Z;
  dts_year : Z
}.

(** What the function can tell apart in a non-empty [UA_Variant]: a scalar
    of one of five built-in types, or anything else (another type, or an
    array), of which only the type's name is used. *)
Inductive UA_TypedValue : Type :=
| Scalar_Boolean (b : bool)
| Scalar_UInt16 (v : Z)
| Scalar_UInt32 (v : Z)
| Scalar_Float (v : UA_Float)
| Scalar_DateTime (v : UA_DateTime)
| Other_Type (typeName : string).

(** A [UA_Variant] whose [type] pointer is NULL is empty. *)
Definition UA_Variant := option UA_TypedValue.

Definition UA_Variant_isEmpty (v : UA_Variant) : bool :=
  match v with None => true | Some _ => false end.

Record UA_ReferenceDescription : Type := mkReference {
  isForward : bool;
  nodeId : UA_NodeId
}.

Record UA_BrowseResult : Type := mkBrowseResult {
  references : list UA_ReferenceDescription
}.

(** A browse response: one result per browsed node; a failed service call
    comes back with no result at all. *)
Record UA_BrowseResponse : Type := mkBrowseResponse {
  results : list UA_BrowseResult
}.

(** ** Rendering *)

Module Render.

(** [char indent[64] = {0}] and the loop that fills it (lines 113-117). *)
Definition buffer_set (buf : list ascii) (i : nat) (c : ascii) : list ascii :=
  firstn i buf ++ c :: skipn (S i) buf.

Definition indent_iterations (depth : Z) : nat := Z.to_nat (Z.min depth 60).

Definition indent_fill (iterations : nat) : list ascii :=
  fold_left
    (fun buf i => buffer_set (buffer_set buf i " "%char) (i + 1) " "%char)
    (seq 0 iterations)
    (repeat NUL 64).

Definition indent_buffer (depth : Z) : list ascii :=
  indent_fill (indent_iterations depth).

(** The check that [k] iterations of the loop leave [k + 1] spaces (none
    for [k = 0]) before the first NUL. *)
Definition indent_fill_check (k : nat) : bool :=
  String.eqb (until_nul (string_of_list_ascii (indent_fill k)))
             (spaces (match k with O => 0 | S _ => S k end)).

(** The indentation as [printf("%s", indent)] prints it. *)
Definition indent (depth : Z) : string :=
  until_nul (string_of_list_ascii (indent_buffer depth)).

(** [printf("%s%.*s", indent, (int)browseName.name.length, browseName.name.data)] *)
Definition name_text (depth : Z) (browseName : UA_QualifiedName) : string :=
  indent depth ++ fmt_prec_s (String.length (name browseName)) (name browseName).

(** The [nodeIdStr] buffer after lines 123-136. *)
Definition nodeIdStr (n : UA_NodeId) : string :=
  let nodeIdStr := snprintf 256 (" [ns=" ++ fmt_u (namespaceIndex n) ++ ";") in
  match identifier n with
  | Id_Numeric numeric =>
      let temp := snprintf 64 ("i=" ++ fmt_u numeric ++ "]") in
      strncat nodeIdStr temp (256 - String.length nodeIdStr - 1)
  | Id_String str =>
      let temp := snprintf 256 ("s=" ++ fmt_prec_s (String.length str) str ++ "]") in
      strncat nodeIdStr temp (256 - String.length nodeIdStr - 1)
  | Id_Guid _ => nodeIdStr
  | Id_ByteString _ => nodeIdStr
  end.

(** [printf(" %s", nodeIdStr)] *)
Definition nodeId_text (n : UA_NodeId) : string := " " ++ nodeIdStr n.

(** The label each [case] of the [switch] prints (without the newline). *)
Definition class_label (c : UA_NodeClass) : string :=
  match c with
  | UA_NODECLASS_OBJECT => " (Object)"
  | UA_NODECLASS_VARIABLE => " (Variable)"
  | UA_NODECLASS_METHOD => " (Method)"
  | UA_NODECLASS_OBJECTTYPE => " (ObjectType)"
  | UA_NODECLASS_VARIABLETYPE => " (VariableType)"
  | UA_NODECLASS_REFERENCETYPE => " (ReferenceType)"
  | UA_NODECLASS_DATATYPE => " (DataType)"
  | UA_NODECLASS_VIEW => " (View)"
  | UA_NODECLASS_UNSPECIFIED => " (Unknown)"
  end.

(** Every field of the breakdown fits the width its conversion asks for. *)
Definition fits_widths (dts : UA_DateTimeStruct) : Prop :=
  0 <= dts_year dts <= 9999 /\ 0 <= dts_month dts <= 99 /\ 0 <= dts_day dts <= 99 /\
  0 <= dts_hour dts <= 99 /\ 0 <= dts_min dts <= 99 /\ 0 <= dts_sec dts <= 99.

Definition LF : string := String (ascii_of_nat 10) EmptyString.

Section Decoder.

(** Two conversions live in libraries outside the repository: the [%.2f]
    conversion of a float and open62541's calendar breakdown of a
    [UA_DateTime]. *)
Variable fmt_2f : UA_Float -> string.
Variable UA_DateTime_toStruct : UA_DateTime -> UA_DateTimeStruct.

(** ["%04u-%02u-%02u %02u:%02u:%02u"] *)
Definition fmt_datetime (dts : UA_DateTimeStruct) : string :=
  fmt_0u 4 (dts_year dts) ++ "-" ++ fmt_0u 2 (dts_month dts) ++ "-" ++ fmt_0u 2 (dts_day dts)
  ++ " " ++ fmt_0u 2 (dts_hour dts) ++ ":" ++ fmt_0u 2 (dts_min dts) ++ ":" ++ fmt_0u 2 (dts_sec dts).

(** The type dispatch of lines 156-172. *)
Definition decode (value : UA_TypedValue) : string :=
  match value with
  | Scalar_Boolean b => if b then "true" else "false"
  | Scalar_UInt16 v => fmt_u v
  | Scalar_UInt32 v => fmt_u v
  | Scalar_Float v => fmt_2f v
  | Scalar_DateTime v => fmt_datetime (UA_DateTime_toStruct v)
  | Other_Type typeName => "[" ++ typeName ++ "]"
  end.

Definition read_error_text (readStatus : UA_StatusCode) : string :=
  " [Read error: 0x" ++ fmt_08X readStatus ++ "]".

End Decoder.

End Render.

(** ** The client, and what a run of the function leaves behind *)

(** The four round trips the function makes.  A round trip may change the
    state [S] of the session (and of the server behind it). *)
Record UA_Client (S : Type) : Type := mkClient {
  UA_Client_readNodeClassAttribute : UA_NodeId -> S -> (UA_StatusCode * UA_NodeClass) * S;
  UA_Client_readBrowseNameAttribute : UA_NodeId -> S -> (UA_StatusCode * UA_QualifiedName) * S;
  UA_Client_readValueAttribute : UA_NodeId -> S -> (UA_StatusCode * UA_Variant) * S;
  UA_Client_Service_browse : UA_NodeId -> S -> UA_BrowseResponse * S
}.

Arguments UA_Client_readNodeClassAttribute {S} _ _ _.
Arguments UA_Client_readBrowseNameAttribute {S} _ _ _.
Arguments UA_Client_readValueAttribute {S} _ _ _.
Arguments UA_Client_Service_browse {S} _ _ _.

(** Observable events, in program order.  [Enter] is a ghost event marking
    the entry of [browseAndReadNode] with its node and depth. *)
Inductive Event : Type :=
| Enter (n : UA_NodeId) (depth : Z)
| ReadNodeClass (n : UA_NodeId)
| ReadBrowseName (n : UA_NodeId)
| ReadValue (n : UA_NodeId)
| Browse (n : UA_NodeId)
| Printf (text : string).

Module Run.

(** The result of running a piece of the program from a session state: the
    events in order, the session state reached, and the returned value, or
    [None] when the call stack budget ran out first. *)
Record Result (S A : Type) : Type := mkResult {
  trace : list Event;
  final : S;
  outcome : option A
}.

Arguments mkResult {S A} _ _ _.
Arguments trace {S A} _.
Arguments final {S A} _.
Arguments outcome {S A} _.

Definition M (S A : Type) : Type := S -> Result S A.

Definition ret {S A} (a : A) : M S A := fun s => mkResult [] s (Some a).

Definition bind {S A B} (m : M S A) (k : A -> M S B) : M S B :=
  fun s =>
    let r := m s in
    match outcome r with
    | None => mkResult (trace r) (final r) None
    | Some a =>
        let r' := k a (final r) in
        mkResult (trace r ++ trace r') (final r') (outcome r')
    end.

Definition emit {S} (e : Event) : M S unit := fun s => mkResult [e] s (Some tt).

Definition stack_exhausted {S A} : M S A := fun s => mkResult [] s None.

(** A round trip: the event, then the collaborator's answer. *)
Definition round_trip {S A} (e : Event) (call : S -> A * S) : M S A :=
  fun s => let (a, s') := call s in mkResult [e] s' (Some a).

Definition printf {S} (text : string) : M S unit := emit (Printf text).

(** [for (i = 0; i < size; i++) body(array[i])] *)
Fixpoint for_each {S A} (body : A -> M S unit) (array : list A) : M S unit :=
  match array with
  | [] => ret tt
  | x :: rest => bind (body x) (fun _ => for_each body rest)
  end.

End Run.

Import Run.

Declare Scope run_scope.
Delimit Scope run_scope with run.
Notation "x <- m ;; k" := (bind m (fun x => k))
  (at level 61, m at next level, right associativity) : run_scope.
Notation "' p <- m ;; k" := (bind m (fun x => match x with p => k end))
  (at level 61, p pattern, m at next level, right associativity) : run_scope.
Notation "m ;; k" := (bind m (fun _ => k))
  (at level 61, right associativity) : run_scope.

(** ** [browseAndReadNode] *)

Section Browser.

Context {S : Type}.
Variable client : UA_Client S.
Variable fmt_2f : UA_Float -> string.
Variable UA_DateTime_toStruct : UA_DateTime -> UA_DateTimeStruct.

Import Render.

Local Open Scope run_scope.

Definition is_good (status : UA_StatusCode) : bool := status =? UA_STATUSCODE_GOOD.

(** "Get node attributes" (lines 104-110): the condition of the [if] reads
    the node class and, only when that succeeded, the browse name; [None]
    is the [return] of line 109. *)
Definition read_attributes (n : UA_NodeId) : M S (option (UA_NodeClass * UA_QualifiedName)) :=
  '(classStatus, nodeClass) <-
     round_trip (ReadNodeClass n) (UA_Client_readNodeClassAttribute client n) ;;
  if negb (is_good classStatus) then ret None else
  '(nameStatus, browseName) <-
     round_trip (ReadBrowseName n) (UA_Client_readBrowseNameAttribute client n) ;;
  if negb (is_good nameStatus) then ret None else
  ret (Some (nodeClass, browseName)).

(** [case UA_NODECLASS_VARIABLE:] (lines 145-178).  The type dispatch is
    reached with a non-empty variant only. *)
Definition print_variable (n : UA_NodeId) : M S unit :=
  printf " (Variable)" ;;
  '(readStatus, value) <-
     round_trip (ReadValue n) (UA_Client_readValueAttribute client n) ;;
  (if is_good readStatus && negb (UA_Variant_isEmpty value)
   then
     printf " = " ;;
     match value with
     | Some typed => printf (decode fmt_2f UA_DateTime_toStruct typed)
     | None => ret tt
     end
   else printf (read_error_text readStatus)) ;;
  printf LF.

(** "Determine node type": the [switch (nodeClass)] of lines 141-199. *)
Definition print_class (n : UA_NodeId) (nodeClass : UA_NodeClass) : M S unit :=
  match nodeClass with
  | UA_NODECLASS_VARIABLE => print_variable n
  | _ => printf (class_label nodeClass ++ LF)
  end.

(** "Display node information" (lines 112-199): the node's line. *)
Definition print_node (n : UA_NodeId) (depth : Z) (nodeClass : UA_NodeClass)
    (browseName : UA_QualifiedName) : M S unit :=
  printf (name_text depth browseName) ;;
  printf (nodeId_text n) ;;
  print_class n nodeClass.

(** [nodeClass == UA_NODECLASS_OBJECT || nodeClass == UA_NODECLASS_VIEW] *)
Definition browses_children (nodeClass : UA_NodeClass) : bool :=
  match nodeClass with
  | UA_NODECLASS_OBJECT | UA_NODECLASS_VIEW => true
  | _ => false
  end.

(** ["  Found %zu references to browse\n"] *)
Definition found_text (referencesSize : nat) : string :=
  "  Found " ++ digits 20 10 (Z.of_nat referencesSize) "" ++ " references to browse" ++ LF.

(** The references the loop of line 218 runs over: those of [results[0]],
    and none when [resultsSize] is 0. *)
Definition references_to_browse (bResp : UA_BrowseResponse) : list UA_ReferenceDescription :=
  match results bResp with
  | [] => []
  | result0 :: _ => references result0
  end.

(** The loop of lines 218-222, given the recursive call. *)
Definition browse_references (recurse : UA_NodeId -> M S unit)
    (refs : list UA_ReferenceDescription) : M S unit :=
  for_each (fun ref => if isForward ref then recurse (nodeId ref) else ret tt) refs.

(** "Recursive traversal of child nodes" (lines 205-226), given the
    recursive call. *)
Definition browse_children (recurse : UA_NodeId -> M S unit)
    (n : UA_NodeId) (depth : Z) (verbose : bool) : M S unit :=
  bResp <- round_trip (Browse n) (UA_Client_Service_browse client n) ;;
  match references_to_browse bResp with
  | [] => ret tt
  | (_ :: _) as refs =>
      (if verbose && (depth =? 0) then printf (found_text (List.length refs)) else ret tt) ;;
      browse_references recurse refs
  end.

(** [fuel] is the call stack budget: the number of nested calls the run may
    make; the C function itself has no bound on its recursion.  [depth] is
    a C [int]; it would take 2^31 nested calls to overflow it, and it is
    left to grow here. *)
Fixpoint browseAndReadNode (fuel : nat) (n : UA_NodeId) (depth : Z) (verbose : bool)
    : M S unit :=
  match fuel with
  | O => stack_exhausted
  | Datatypes.S fuel' =>
      emit (Enter n depth) ;;
      attributes <- read_attributes n ;;
      match attributes with
      | None => ret tt
      | Some (nodeClass, browseName) =>
          print_node n depth nodeClass browseName ;;
          if browses_children nodeClass
          then browse_children
                 (fun child => browseAndReadNode fuel' child (depth + 1) verbose)
                 n depth verbose
          else ret tt
      end
  end.

(** The loop a parent runs over its references, whose calls run at [depth]. *)
Definition browse_siblings (fuel : nat) (refs : list UA_ReferenceDescription)
    (depth : Z) (verbose : bool) : M S unit :=
  browse_references (fun child => browseAndReadNode fuel child depth verbose) refs.

End Browser.

(** ** Reading a trace *)

Module Observe.

(** What reached standard output. *)
Fixpoint stdout (t : list Event) : string :=
  match t with
  | [] => EmptyString
  | Printf text :: t' => text ++ stdout t'
  | _ :: t' => stdout t'
  end.

(** The calls of [browseAndReadNode] that were entered, with their depth. *)
Fixpoint calls (t : list Event) : list (UA_NodeId * Z) :=
  match t with
  | [] => []
  | Enter n depth :: t' => (n, depth) :: calls t'
  | _ :: t' => calls t'
  end.

(** The nodes of the calls entered at one depth, in order. *)
Fixpoint calls_at (d : Z) (t : list Event) : list UA_NodeId :=
  match t with
  | [] => []
  | Enter n depth :: t' => if depth =? d then n :: calls_at d t' else calls_at d t'
  | _ :: t' => calls_at d t'
  end.

(** The nodes a browse round trip was made for. *)
Fixpoint browsed (t : list Event) : list UA_NodeId :=
  match t with
  | [] => []
  | Browse n :: t' => n :: browsed t'
  | _ :: t' => browsed t'
  end.

(** The round trips alone, in order. *)
Definition is_round_trip (e : Event) : bool :=
  match e with
  | ReadNodeClass _ | ReadBrowseName _ | ReadValue _ | Browse _ => true
  | Enter _ _ | Printf _ => false
  end.

Definition round_trips (t : list Event) : list Event := filter is_round_trip t.

End Observe.

Import Observe.

(** ** The walk as a tree *)

(** A node whose attributes could be read, with the line printed for it
    and the nodes read below it. *)
#[local] Unset Elimination Schemes.
Inductive Visit : Type :=
| Visited (n : UA_NodeId) (depth : Z) (line : string) (children : list Visit).
#[local] Set Elimination Schemes.

(** Pre-order: a node's line, then the lines of its first child and of all
    below that child, then those of the next child, and so on. *)
Fixpoint preorder (t : Visit) : list string :=
  match t with
  | Visited _ _ line children => line :: flat_map preorder children
  end.

Definition listing (forest : list Visit) : list string := flat_map preorder forest.

Fixpoint join (texts : list string) : string :=
  match texts with
  | [] => EmptyString
  | text :: rest => text ++ join rest
  end.

Section Walk.

Context {S : Type}.
Variable client : UA_Client S.
Variable fmt_2f : UA_Float -> string.
Variable UA_DateTime_toStruct : UA_DateTime -> UA_DateTimeStruct.

(** The trees below a sequence of nodes, visited one after the other. *)
Fixpoint visit_each (visit : UA_NodeId -> S -> option (list Visit * S))
    (targets : list UA_NodeId) (s : S) : option (list Visit * S) :=
  match targets with
  | [] => Some ([], s)
  | child :: rest =>
      match visit child s with
      | None => None
      | Some (tree, s1) =>
          match visit_each visit rest s1 with
          | None => None
          | Some (trees, s2) => Some ((tree ++ trees)%list, s2)
          end
      end
  end.

(** The walk as the design describes it, returning a tree instead of
    printing: read the attributes of the node; on failure there is no tree;
    on success the node carries the line [print_node] writes for it, and,
    for an Object or a View, its children are the walks of the targets of
    the forward references of its browse, in order, one level down.
    [None] when the stack budget does not suffice. *)
Fixpoint visit (fuel : nat) (n : UA_NodeId) (depth : Z) (s : S) : option (list Visit * S) :=
  match fuel with
  | O => None
  | Datatypes.S fuel' =>
      let ra := read_attributes client n s in
      match outcome ra with
      | Some (Some (nodeClass, browseName)) =>
          let rp := print_node client fmt_2f UA_DateTime_toStruct n depth nodeClass browseName
                               (final ra) in
          let line := stdout (trace rp) in
          if browses_children nodeClass then
            let b := UA_Client_Service_browse client n (final rp) in
            let targets := map nodeId (filter isForward (references_to_browse (fst b))) in
            match visit_each (fun child => visit fuel' child (depth + 1)) targets (snd b) with
            | Some (children, s') => Some ([Visited n depth line children], s')
            | None => None
            end
          else Some ([Visited n depth line []], final rp)
      | _ => Some ([], final ra)
      end
  end.

(** The line counting the references, which a verbose run prints after the
    line of a depth-0 node whose browse returned any. *)
Definition found_line (refs : list UA_ReferenceDescription) : string :=
  match refs with
  | [] => EmptyString
  | _ :: _ => found_text (List.length refs)
  end.

End Walk.

(** ** Example sessions *)

Module Examples.

(** A String identifier of 300 characters. *)
Definition long_identifier : string := string_of_list_ascii (repeat "a"%char 300).

(** A Gregorian calendar breakdown of a tick count (100 ns ticks since
    1601-01-01), standing in for open62541's [UA_DateTime_toStruct]. *)
Definition calendar (t : UA_DateTime) : UA_DateTimeStruct :=
  let secs := t / 10000000 in
  let days := secs / 86400 in
  let rem := secs mod 86400 in
  let z := days - 134774 + 719468 in
  let era := z / 146097 in
  let doe := z - era * 146097 in
  let yoe := (doe - doe / 1460 + doe / 36524 - doe / 146096) / 365 in
  let doy := doe - (365 * yoe + yoe / 4 - yoe / 100) in
  let mp := (5 * doy + 2) / 153 in
  let d := doy - (153 * mp + 2) / 5 + 1 in
  let m := if mp <? 10 then mp + 3 else mp - 9 in
  let y := yoe + era * 400 + (if m <=? 2 then 1 else 0) in
  mkDateTimeStruct (rem mod 60) (rem / 60 mod 60) (rem / 3600) d m y.

(** 2025-01-01T00:00:00Z as a [UA_DateTime]. *)
Definition new_year_2025 : UA_DateTime := 133801632000000000.

(** The [%.2f] conversion of an IEEE-754 single given by its 32 bits,
    rounding the exact value to the nearest hundredth (ties to even),
    standing in for the C library's. *)
Definition two_decimals (bits : UA_Float) : string :=
  let negative := Z.testbit bits 31 in
  let e := Z.land (Z.shiftr bits 23) 255 in
  let m := Z.land bits 0x7FFFFF in
  let sign := if negative then "-" else "" in
  if e =? 255 then sign ++ (if m =? 0 then "inf" else "nan")
  else
    let significand := if e =? 0 then m else m + 2 ^ 23 in
    let exponent := (if e =? 0 then 1 else e) - 150 in
    let numerator := significand * 100 * (if 0 <=? exponent then 2 ^ exponent else 1) in
    let denominator := if 0 <=? exponent then 1 else 2 ^ (- exponent) in
    let q := numerator / denominator in
    let r := numerator mod denominator in
    let hundredths :=
      if 2 * r <? denominator then q
      else if (2 * r =? denominator) && Z.even q then q
      else q + 1 in
    sign ++ digits 45 10 (hundredths / 100) "" ++ "."
         ++ zero_pad 2 (digits 2 10 (hundredths mod 100) "").

(** 3.14159 as a single. *)
Definition pi_single : UA_Float := 0x40490FD0.

(** The numeric identifier of a node, or -1. *)
Definition numeric_of (n : UA_NodeId) : Z :=
  match identifier n with
  | Id_Numeric i => i
  | _ => -1
  end.

Definition node (i : Z) : UA_NodeId := UA_NODEID_NUMERIC 0 i.
Definition forward (i : Z) : UA_ReferenceDescription := mkReference true (node i).
Definition inverse (i : Z) : UA_ReferenceDescription := mkReference false (node i).

Definition BadNodeIdUnknown : UA_StatusCode := 0x80340000.
Definition BadUnexpectedError : UA_StatusCode := 0x80010000.

(** A small plant.  The Objects folder (85) refers forward to Pump (1, an
    Object whose browse fails), Level (2, a Float variable), a node (4)
    whose attributes cannot be read, Speed (5, a variable whose value read
    fails), Mode (6, a variable whose value is empty) and Tank (3, an
    Object that only refers back to the folder).  The session has no state
    of its own. *)
Definition plant : UA_Client unit := {|
  UA_Client_readNodeClassAttribute := fun n s =>
    let i := numeric_of n in
    (if (i =? 85) || (i =? 1) || (i =? 3) then (UA_STATUSCODE_GOOD, UA_NODECLASS_OBJECT)
     else if (i =? 2) || (i =? 5) || (i =? 6) then (UA_STATUSCODE_GOOD, UA_NODECLASS_VARIABLE)
     else (BadNodeIdUnknown, UA_NODECLASS_UNSPECIFIED), s);
  UA_Client_readBrowseNameAttribute := fun n s =>
    let i := numeric_of n in
    ((UA_STATUSCODE_GOOD,
      mkQualifiedName 0
        (if i =? 85 then "Objects" else if i =? 1 then "Pump" else if i =? 2 then "Level"
         else if i =? 3 then "Tank" else if i =? 5 then "Speed" else "Mode")), s);
  UA_Client_readValueAttribute := fun n s =>
    let i := numeric_of n in
    (if i =? 2 then (UA_STATUSCODE_GOOD, Some (Scalar_Float pi_single))
     else if i =? 5 then (BadUnexpectedError, None)
     else (UA_STATUSCODE_GOOD, None), s);
  UA_Client_Service_browse := fun n s =>
    let i := numeric_of n in
    (mkBrowseResponse
       (if i =? 85
        then [mkBrowseResult [forward 1; forward 2; forward 4; forward 5; forward 6; forward 3]]
        else if i =? 3 then [mkBrowseResult [inverse 85]]
        else if i =? 1 then []
        else [mkBrowseResult []]), s)
|}.

(** The longest chain of forward references below a node of the plant. *)
Definition plant_height (n : UA_NodeId) : nat :=
  if numeric_of n =? 85 then 1%nat else 0%nat.

(** A server whose Objects folder refers forward to itself. *)
Definition looping : UA_Client unit := {|
  UA_Client_readNodeClassAttribute := fun n s => ((UA_STATUSCODE_GOOD, UA_NODECLASS_OBJECT), s);
  UA_Client_readBrowseNameAttribute := fun n s => ((UA_STATUSCODE_GOOD, mkQualifiedName 0 "Objects"), s);
  UA_Client_readValueAttribute := fun n s => ((UA_STATUSCODE_GOOD, None), s);
  UA_Client_Service_browse := fun n s => (mkBrowseResponse [mkBrowseResult [forward 85]], s)
|}.

(** The browser on the plant and on the looping server. *)
Definition browse_plant : nat -> UA_NodeId -> Z -> bool -> M unit unit :=
  browseAndReadNode plant two_decimals calendar.

Definition browse_looping : nat -> UA_NodeId -> Z -> bool -> M unit unit :=
  browseAndReadNode looping two_decimals calendar.

(** The lines a quiet run over the plant prints, without their newlines. *)
Definition plant_lines : list string :=
  [ "Objects  [ns=0;i=85] (Object)";
    "  Pump  [ns=0;i=1] (Object)";
    "  Level  [ns=0;i=2] (Variable) = 3.14";
    "  Speed  [ns=0;i=5] (Variable) [Read error: 0x80010000]";
    "  Mode  [ns=0;i=6] (Variable) [Read error: 0x00000000]";
    "  Tank  [ns=0;i=3] (Object)" ].

End Examples.

(** ** The program: [print_help] and [main] *)

Module Program.

Import Render.

(** What the program does that can be observed from outside, in program
    order: its own [printf] calls, the life of the client object, and the
    events of [browseAndReadNode]. *)
Inductive ProgramEvent : Type :=
| Stdout (text : string)
| ClientNew
| ConfigTimeout (timeout_ms : Z)
| Connect (server_url : string)
| InSession (e : Event)
| Disconnect
| ClientDelete.

(** The result of a run of [main]: the events, the session state left
    behind, and the exit code, or [None] when the stack ran out during the
    browse. *)
Record ProgramResult (S : Type) : Type := mkProgramResult {
  program_trace : list ProgramEvent;
  program_final : S;
  exit_code : option Z
}.

Arguments mkProgramResult {S} _ _ _.
Arguments program_trace {S} _.
Arguments program_final {S} _.
Arguments exit_code {S} _.

(** [print_help] (lines 231-265), one event for each [printf]. *)
Definition print_help (program_name : string) : list ProgramEvent :=
  [ Stdout ("UAConsole - Universal OPC UA Server Console Browser" ++ LF);
    Stdout ("=====================================================" ++ LF ++ LF);
    Stdout ("Usage: " ++ program_name ++ " [OPTIONS] [SERVER_URL]" ++ LF ++ LF);
    Stdout ("Options:" ++ LF);
    Stdout ("  -h, --help           Show this help message" ++ LF);
    Stdout ("  -v, --verbose        Enable verbose output" ++ LF);
    Stdout ("  -t, --timeout N      Set connection timeout in ms (default: 5000)" ++ LF ++ LF);
    Stdout ("Examples:" ++ LF);
    Stdout ("  " ++ program_name ++ " opc.tcp://10.0.0.128:4840" ++ LF);
    Stdout ("  " ++ program_name ++ " -v opc.tcp://opcua-esp32:4840" ++ LF);
    Stdout ("  " ++ program_name ++ " -t 10000 opc.tcp://10.0.0.128:4840" ++ LF ++ LF);
    Stdout ("Contact:" ++ LF);
    Stdout ("  WeChat: wxid_ic7ytyv3mlh522" ++ LF);
    Stdout ("  Email:  aksurd@yandex.ru" ++ LF ++ LF);
    Stdout ("Safety Warning 安全警告:" ++ LF);
    Stdout ("  • For testing/diagnostic use only 仅用于测试/诊断" ++ LF);
    Stdout ("  • Not for production without validation 未经验证不得用于生产" ++ LF);
    Stdout ("  • Test in isolated environment first 先在隔离环境测试" ++ LF);
    Stdout ("  • Author assumes no liability 作者不承担任何责任" ++ LF ++ LF);
    Stdout ("Build & Installation 构建与安装:" ++ LF);
    Stdout ("  # Install library 安装库" ++ LF);
    Stdout ("  sudo apt-get install libopen62541-dev" ++ LF ++ LF);
    Stdout ("  # Compile 编译" ++ LF);
    Stdout ("  gcc -o uaconsole browse_opc_server.c -lopen62541 -lm" ++ LF ++ LF);
    Stdout ("  # Run 运行" ++ LF);
    Stdout ("  ./uaconsole opc.tcp://10.0.0.128:4840" ++ LF ++ LF);
    Stdout ("Note: Server URL is REQUIRED for browsing." ++ LF);
    Stdout ("      Run without arguments to see this help." ++ LF) ].

(** The three variables the parsing loop sets (lines 277-279). *)
Record Options : Type := mkOptions {
  server_url : string;
  verbose : bool;
  timeout_ms : Z
}.

Definition default_options : Options :=
  mkOptions "opc.tcp://10.0.0.128:4840" false 5000.

(** How the parsing loop ends: it falls through to the connection, or it
    returns from [main] after the help (exit code 0) or after an error
    message (exit code 1). *)
Inductive Parsed : Type :=
| Proceed (options : Options)
| Show_help
| Rejected (messages : list ProgramEvent).

(** [argv[i][0] == '-'] *)
Definition starts_with_dash (arg : string) : bool :=
  match arg with
  | String c _ => Ascii.eqb c "-"%char
  | EmptyString => false
  end.

(** [%d] of an [int]. *)
Definition fmt_d (n : Z) : string :=
  if n <? 0 then "-" ++ digits 10 10 (- n) "" else digits 10 10 n "".

Section Main.

Context {S : Type}.

(** The connection half of the client: [UA_Client_connect] under the
    timeout the configuration holds, and [UA_Client_disconnect]. *)
Record UA_Connection : Type := mkConnection {
  UA_Client_connect : string -> Z -> S -> UA_StatusCode * S;
  UA_Client_disconnect : S -> UA_StatusCode * S
}.

Variable connection : UA_Connection.
Variable client : UA_Client S.
Variable fmt_2f : UA_Float -> string.
Variable UA_DateTime_toStruct : UA_DateTime -> UA_DateTimeStruct.

(** Three more functions of libraries outside the repository: [atoi] of
    the C library (which returns an [int]), the name open62541 gives to a
    status code, and its clock. *)
Variable atoi : string -> Z.
Variable UA_StatusCode_name : UA_StatusCode -> string.
Variable UA_DateTime_now : UA_DateTime.

(** The loop of lines 282-307 over [argv[1]] .. [argv[argc-1]]. *)
Fixpoint parse_arguments (program_name : string) (arguments : list string)
    (options : Options) : Parsed :=
  match arguments with
  | [] => Proceed options
  | arg :: rest =>
      if String.eqb arg "-h" || String.eqb arg "--help" then Show_help
      else if String.eqb arg "-v" || String.eqb arg "--verbose" then
        parse_arguments program_name rest
          (mkOptions (server_url options) true (timeout_ms options))
      else if String.eqb arg "-t" || String.eqb arg "--timeout" then
        match rest with
        | value :: rest' =>
            let timeout := atoi value in
            if timeout <=? 0
            then Rejected [Stdout ("Error: Timeout must be positive" ++ LF)]
            else parse_arguments program_name rest'
                   (mkOptions (server_url options) (verbose options) timeout)
        | [] => Rejected [Stdout ("Error: Missing value for timeout" ++ LF)]
        end
      else if starts_with_dash arg then
        Rejected [Stdout ("Unknown option: " ++ arg ++ LF);
                  Stdout ("Use " ++ program_name ++ " -h for help" ++ LF)]
      else
        parse_arguments program_name rest
          (mkOptions arg (verbose options) (timeout_ms options))
  end.

(** What [main] prints before it connects (lines 318-328). *)
Definition banner (options : Options) : list ProgramEvent :=
  [ Stdout ("=============================================" ++ LF);
    Stdout ("   UAConsole - OPC UA Server Browser" ++ LF);
    Stdout ("=============================================" ++ LF ++ LF) ]
  ++ (if verbose options
      then [ Stdout ("Verbose mode enabled" ++ LF);
             Stdout ("Connection timeout: " ++ fmt_d (timeout_ms options) ++ " ms" ++ LF);
             Stdout ("Connecting to " ++ server_url options ++ "..." ++ LF) ]
      else [ Stdout ("Connecting to " ++ server_url options ++ "..." ++ LF) ]).

(** What it prints between the connection and the browse (lines 339-358). *)
Definition connected (options : Options) : list ProgramEvent :=
  [ Stdout ("Connected successfully!" ++ LF ++ LF) ]
  ++ (if verbose options
      then [ Stdout ("=== CONNECTION DETAILS ===" ++ LF);
             Stdout ("Connection time: "
                     ++ fmt_datetime (UA_DateTime_toStruct UA_DateTime_now) ++ LF);
             Stdout ("Timeout configured: " ++ fmt_d (timeout_ms options) ++ " ms" ++ LF);
             Stdout LF ]
      else [])
  ++ [ Stdout ("=== RECURSIVE BROWSING OF OBJECTS FOLDER ===" ++ LF) ]
  ++ (if verbose options
      then [ Stdout ("Starting from ObjectsFolder (ns=0;i=85)" ++ LF);
             Stdout ("Depth-first traversal..." ++ LF ++ LF) ]
      else []).

(** What it prints after the browse (lines 368-370). *)
Definition completed (options : Options) : list ProgramEvent :=
  [ Stdout (LF ++ "=== BROWSING COMPLETED ===" ++ LF);
    Stdout ("Server URL: " ++ server_url options ++ LF);
    Stdout ("Disconnected from server" ++ LF) ].

(** Lines 309-372: configure the client, connect, browse from the Objects
    folder at depth 0, disconnect. *)
Definition run_browser (fuel : nat) (options : Options) (s : S) : ProgramResult S :=
  let before :=
    ([ClientNew; ConfigTimeout (timeout_ms options)] ++ banner options
     ++ [Connect (server_url options)])%list in
  let (retval, s1) :=
    UA_Client_connect connection (server_url options) (timeout_ms options) s in
  if negb (retval =? UA_STATUSCODE_GOOD) then
    mkProgramResult
      (before ++ [ Stdout ("Connection failed: " ++ UA_StatusCode_name retval
                           ++ " (0x" ++ fmt_08X retval ++ ")" ++ LF);
                   ClientDelete ])%list
      s1 (Some 1)
  else
    let objectsFolder := UA_NODEID_NUMERIC 0 UA_NS0ID_OBJECTSFOLDER in
    let r := browseAndReadNode client fmt_2f UA_DateTime_toStruct fuel objectsFolder 0
               (verbose options) s1 in
    let browsing := (before ++ connected options ++ map InSession (trace r))%list in
    match outcome r with
    | None => mkProgramResult browsing (final r) None
    | Some _ =>
        let (_, s2) := UA_Client_disconnect connection (final r) in
        mkProgramResult (browsing ++ [Disconnect; ClientDelete] ++ completed options)%list
                        s2 (Some 0)
    end.

(** [main] (lines 267-373).  [argv[0]] is read only where [argc] is at
    least 1. *)
Definition main (fuel : nat) (argv : list string) (s : S) : ProgramResult S :=
  let program_name := hd EmptyString argv in
  if (List.length argv =? 1)%nat then mkProgramResult (print_help program_name) s (Some 0)
  else
    match parse_arguments program_name (tl argv) default_options with
    | Show_help => mkProgramResult (print_help program_name) s (Some 0)
    | Rejected messages => mkProgramResult messages s (Some 1)
    | Proceed options => run_browser fuel options s
    end.

End Main.

Arguments UA_Connection S : clear implicits.

(** What a run of the program writes to standard output. *)
Fixpoint program_stdout (t : list ProgramEvent) : string :=
  match t with
  | [] => EmptyString
  | Stdout text :: t' => text ++ program_stdout t'
  | InSession (Printf text) :: t' => text ++ program_stdout t'
  | _ :: t' => program_stdout t'
  end.

(** What reaches the client library: everything but the program's own
    output and the ghost entries. *)
Definition is_on_the_wire (e : ProgramEvent) : bool :=
  match e with
  | Stdout _ => false
  | InSession e' => is_round_trip e'
  | _ => true
  end.

Definition on_the_wire (t : list ProgramEvent) : list ProgramEvent := filter is_on_the_wire t.

(** The timeouts the client was configured with. *)
Fixpoint configured_timeouts (t : list ProgramEvent) : list Z :=
  match t with
  | [] => []
  | ConfigTimeout ms :: t' => ms :: configured_timeouts t'
  | _ :: t' => configured_timeouts t'
  end.

(** The servers a connection was attempted to. *)
Fixpoint connections (t : list ProgramEvent) : list string :=
  match t with
  | [] => []
  | Connect url :: t' => url :: connections t'
  | _ :: t' => connections t'
  end.

(** Traces that are the program's own output only. *)
Definition printed_only (t : list ProgramEvent) : Prop :=
  Forall (fun e => match e with Stdout _ => True | _ => False end) t.

(** The options once [-v] has been seen. *)
Definition with_verbose (options : Options) : Options :=
  mkOptions (server_url options) true (timeout_ms options).

End Program.

(** ** Measures of a run, and example command lines *)

Module Measure.

Import Render.

Definition is_class_read (e : Event) : bool :=
  match e with ReadNodeClass _ => true | _ => false end.

(** The node-class reads of a run. *)
Definition class_reads (t : list Event) : list Event := filter is_class_read t.

(** The check that [k] iterations of the indentation loop leave a buffer of
    64 characters whose last three are still NUL. *)
Definition indent_bounds_check (k : nat) : bool :=
  (List.length (indent_fill k) =? 64)%nat
  && forallb (fun i => Ascii.eqb (nth i (indent_fill k) " "%char) NUL) [61; 62; 63]%nat.

Definition is_digit (c : ascii) : bool :=
  let code := nat_of_ascii c in ((48 <=? code) && (code <=? 57))%nat.

(** The digits a text starts with. *)
Fixpoint leading_digits (s : string) : string :=
  match s with
  | EmptyString => EmptyString
  | String c s' => if is_digit c then String c (leading_digits s') else EmptyString
  end.

(** What follows them. *)
Fixpoint after_digits (s : string) : string :=
  match s with
  | EmptyString => EmptyString
  | String c s' => if is_digit c then after_digits s' else s
  end.

(** A text without NUL. *)
Fixpoint nul_free (s : string) : bool :=
  match s with
  | EmptyString => true
  | String c s' => negb (Ascii.eqb c NUL) && nul_free s'
  end.

(** A set of nodes that keeps the descent going: each of them reads as an
    Object or a View in every session state, and every browse of one of
    them returns a forward reference to one of them. *)
Definition forward_cycle {S : Type} (client : UA_Client S) (inside : UA_NodeId -> Prop)
    : Prop :=
  forall (n : UA_NodeId) (s : S),
    inside n ->
    (exists cls bn,
       outcome (read_attributes client n s) = Some (Some (cls, bn)) /\
       browses_children cls = true) /\
    (exists ref,
       In ref (references_to_browse (fst (UA_Client_Service_browse client n s))) /\
       isForward ref = true /\ inside (nodeId ref)).

(** A NodeId as its C type allows it: a 16-bit namespace index and, for a
    Numeric identifier, a 32-bit number. *)
Definition fits_its_type (n : UA_NodeId) : Prop :=
  0 <= namespaceIndex n < 2 ^ 16 /\
  match identifier n with
  | Id_Numeric i => 0 <= i < 2 ^ 32
  | _ => True
  end.

End Measure.

Import Measure.

Module ProgramExamples.

Import Program Examples.

Definition is_space (c : ascii) : bool :=
  let code := nat_of_ascii c in ((code =? 32) || ((9 <=? code) && (code <=? 13)))%nat.

Fixpoint skip_spaces (s : string) : string :=
  match s with
  | String c s' => if is_space c then skip_spaces s' else s
  | EmptyString => EmptyString
  end.

Fixpoint digits_value_of (acc : Z) (s : string) : Z :=
  match s with
  | String c s' => if is_digit c then digits_value_of (10 * acc + digit_value c) s' else acc
  | EmptyString => acc
  end.

(** [atoi] on texts whose number fits an [int]: blanks, a sign, digits;
    standing in for the C library's. *)
Definition atoi (s : string) : Z :=
  match skip_spaces s with
  | String "-"%char s' => - digits_value_of 0 s'
  | String "+"%char s' => digits_value_of 0 s'
  | s' => digits_value_of 0 s'
  end.

Definition BadConnectionRejected : UA_StatusCode := 0x80AC0000.

Definition status_name (status : UA_StatusCode) : string :=
  if status =? BadConnectionRejected then "BadConnectionRejected" else "Unknown StatusCode".

Definition plant_url : string := "opc.tcp://plant:4840".

(** The plant accepts connections at its own address only. *)
Definition plant_connection : UA_Connection unit := {|
  UA_Client_connect := fun url timeout s =>
    (if String.eqb url plant_url then UA_STATUSCODE_GOOD else BadConnectionRejected, s);
  UA_Client_disconnect := fun s => (UA_STATUSCODE_GOOD, s)
|}.

(** The looping server accepts every connection. *)
Definition looping_connection : UA_Connection unit := {|
  UA_Client_connect := fun url timeout s => (UA_STATUSCODE_GOOD, s);
  UA_Client_disconnect := fun s => (UA_STATUSCODE_GOOD, s)
|}.

(** The program on the plant. *)
Definition plant_main : nat -> list string -> unit -> ProgramResult unit :=
  main plant_connection plant two_decimals calendar atoi status_name new_year_2025.

Definition plant_parse : list string -> Options -> Parsed :=
  parse_arguments atoi "uaconsole".

Definition BadUserAccessDenied : UA_StatusCode := 0x801F0000.

(** A server that lets a client in and refuses every request. *)
Definition locked : UA_Client unit := {|
  UA_Client_readNodeClassAttribute := fun n s =>
    ((BadUserAccessDenied, UA_NODECLASS_UNSPECIFIED), s);
  UA_Client_readBrowseNameAttribute := fun n s =>
    ((BadUserAccessDenied, mkQualifiedName 0 ""), s);
  UA_Client_readValueAttribute := fun n s => ((BadUserAccessDenied, None), s);
  UA_Client_Service_browse := fun n s => (mkBrowseResponse [], s)
|}.

Definition vault_url : string := "opc.tcp://vault:4840".

(** The program on that server. *)
Definition locked_main : nat -> list string -> unit -> ProgramResult unit :=
  main looping_connection locked two_decimals calendar atoi status_name new_year_2025.

End ProgramExamples.

(** * Properties *)

(** ** Texts *)

Module TextFacts.

Lemma append_nil_r (s : string) : s ++ "" = s.
Proof. induction s as [|c s IH]; simpl; [reflexivity | now rewrite IH]. Qed.

Lemma append_assoc (a b c : string) : (a ++ b) ++ c = a ++ (b ++ c).
Proof. induction a as [|x a IH]; simpl; [reflexivity | now rewrite IH]. Qed.

Lemma length_append (a b : string) :
  String.length (a ++ b) = (String.length a + String.length b)%nat.
Proof. induction a as [|x a IH]; simpl; [reflexivity | now rewrite IH]. Qed.

Lemma truncate_fits (n : nat) (s : string) :
  (String.length s <= n)%nat -> truncate n s = s.
Proof.
  revert n; induction s as [|c s IH]; intros [|n] H; simpl in *; try reflexivity; try lia.
  rewrite IH by lia; reflexivity.
Qed.

Lemma truncate_length (n : nat) (s : string) : (String.length (truncate n s) <= n)%nat.
Proof.
  revert s; induction n as [|n IH]; intros [|c s]; simpl; try lia.
  specialize (IH s); lia.
Qed.

Lemma truncate_whole (s : string) : truncate (String.length s) s = s.
Proof. apply truncate_fits; lia. Qed.

Lemma fmt_prec_s_whole (s : string) : fmt_prec_s (String.length s) s = until_nul s.
Proof. unfold fmt_prec_s; now rewrite truncate_whole. Qed.

(** Cutting a text whose beginning fits cuts what follows the beginning. *)
Lemma truncate_append (n : nat) (a b : string) :
  (String.length a <= n)%nat -> truncate n (a ++ b) = a ++ truncate (n - String.length a) b.
Proof.
  revert n; induction a as [|c a IH]; intros n H.
  - cbn [append String.length]; rewrite Nat.sub_0_r; reflexivity.
  - destruct n as [|n]; cbn [String.length] in H; [lia|].
    cbn [append truncate String.length Nat.sub]; rewrite IH by lia; reflexivity.
Qed.

(** Cutting twice is cutting at the smaller bound. *)
Lemma truncate_truncate (m n : nat) (s : string) :
  truncate m (truncate n s) = truncate (Nat.min m n) s.
Proof.
  revert m n; induction s as [|c s IH]; intros [|m] [|n]; try reflexivity.
  cbn [truncate Nat.min]; rewrite IH; reflexivity.
Qed.

Lemma spaces_length (n : nat) : String.length (spaces n) = n.
Proof. induction n as [|n IH]; simpl; [reflexivity | unfold spaces in IH; now rewrite IH]. Qed.

Lemma spaces_injective (a b : nat) : spaces a = spaces b -> a = b.
Proof. intros H; rewrite <- (spaces_length a), <- (spaces_length b), H; reflexivity. Qed.

(** A conversion never produces more digits than its budget. *)
Lemma digits_length (fuel : nat) (base n : Z) (acc : string) :
  (String.length (digits fuel base n acc) <= fuel + String.length acc)%nat.
Proof.
  revert n acc; induction fuel as [|fuel IH]; intros n acc; simpl; [lia|].
  destruct (n / base =? 0); simpl; [lia|].
  specialize (IH (n / base) (String (digit_char (n mod base)) acc)); simpl in IH; lia.
Qed.

Lemma fmt_u_length (n : Z) : (String.length (fmt_u n) <= 10)%nat.
Proof.
  unfold fmt_u; pose proof (digits_length 10 10 (to_unsigned n) "") as L.
  change (String.length "") with 0%nat in L; lia.
Qed.

Lemma digit_value_char (d : Z) : 0 <= d < 16 -> digit_value (digit_char d) = d.
Proof.
  intros H.
  assert (C : d = 0 \/ d = 1 \/ d = 2 \/ d = 3 \/ d = 4 \/ d = 5 \/ d = 6 \/ d = 7 \/
              d = 8 \/ d = 9 \/ d = 10 \/ d = 11 \/ d = 12 \/ d = 13 \/ d = 14 \/ d = 15)
    by lia.
  repeat (destruct C as [C | C]; [subst d; reflexivity|]); subst d; reflexivity.
Qed.

(** The digits written for [n] denote [n]. *)
Lemma digits_value (fuel : nat) (base n : Z) (acc : string) :
  1 < base <= 16 -> 0 <= n < base ^ Z.of_nat fuel ->
  numeral_value_from base 0 (digits fuel base n acc) = numeral_value_from base n acc.
Proof.
  intros Hb; revert n acc; induction fuel as [|fuel IH]; intros n acc H.
  - simpl in H; assert (n = 0) by lia; subst n; reflexivity.
  - simpl digits.
    assert (Hd : 0 <= n / base < base ^ Z.of_nat fuel).
    { rewrite Nat2Z.inj_succ, Z.pow_succ_r in H by lia.
      split; [apply Z.div_pos; lia | apply Z.div_lt_upper_bound; lia]. }
    assert (Hm : 0 <= n mod base < base) by (apply Z.mod_pos_bound; lia).
    pose proof (Z.div_mod n base ltac:(lia)) as E.
    destruct (n / base =? 0) eqn:Q.
    + apply Z.eqb_eq in Q; rewrite Q in E.
      cbn [numeral_value_from].
      rewrite digit_value_char by lia. f_equal; lia.
    + rewrite IH by exact Hd. cbn [numeral_value_from].
      rewrite digit_value_char by lia. f_equal; lia.
Qed.

(** Zeros on the left do not change the value. *)
Lemma zero_pad_value (base : Z) (width : nat) (s : string) :
  numeral_value_from base 0 (zero_pad width s) = numeral_value_from base 0 s.
Proof.
  unfold zero_pad; induction (width - String.length s)%nat as [|k IH]; [reflexivity|].
  cbn [repeat string_of_list_ascii append numeral_value_from].
  change (digit_value "0"%char) with 0.
  replace (base * 0 + 0) with 0 by lia.
  exact IH.
Qed.

(** [%u] writes the decimal numeral of its argument. *)
Lemma fmt_u_decimal (n : Z) : 0 <= n < 2 ^ 32 -> decimal_value (fmt_u n) = n.
Proof.
  intros H; unfold decimal_value, fmt_u, to_unsigned.
  rewrite Z.mod_small by exact H.
  rewrite digits_value; [reflexivity | lia|].
  change (Z.of_nat 10) with 10; lia.
Qed.

(** [%08X] writes a hexadecimal numeral of its argument. *)
Lemma fmt_08X_hex (n : Z) : 0 <= n < 2 ^ 32 -> hex_value (fmt_08X n) = n.
Proof.
  intros H; unfold hex_value, fmt_08X, to_unsigned.
  rewrite zero_pad_value, Z.mod_small by exact H.
  rewrite digits_value; [reflexivity | lia|].
  change (Z.of_nat 8) with 8; lia.
Qed.

(** A decimal text of a number below [10 ^ w] has at most [w] digits. *)
Lemma digits_width (fuel w : nat) (n : Z) (acc : string) :
  (1 <= w)%nat -> 0 <= n < 10 ^ Z.of_nat w ->
  (String.length (digits fuel 10 n acc) <= w + String.length acc)%nat.
Proof.
  revert w n acc; induction fuel as [|fuel IH]; intros w n acc Hw H; simpl; [lia|].
  destruct (n / 10 =? 0) eqn:Q; simpl; [lia|].
  apply Z.eqb_neq in Q.
  destruct w as [|[|w]]; [lia | |].
  - change (10 ^ Z.of_nat 1) with 10 in H.
    exfalso; apply Q; apply Z.div_small; lia.
  - assert (Hd : 0 <= n / 10 < 10 ^ Z.of_nat (S w)).
    { rewrite (Nat2Z.inj_succ (S w)), Z.pow_succ_r in H by lia.
      split; [apply Z.div_pos; lia | apply Z.div_lt_upper_bound; lia]. }
    specialize (IH (S w) (n / 10) (String (digit_char (n mod 10)) acc) ltac:(lia) Hd).
    simpl in IH; lia.
Qed.

Lemma zero_pad_length (width : nat) (s : string) :
  (String.length s <= width)%nat -> String.length (zero_pad width s) = width.
Proof.
  intros H; unfold zero_pad; rewrite length_append.
  assert (L : forall k, String.length (string_of_list_ascii (repeat "0"%char k)) = k).
  { induction k as [|k IH]; simpl; [reflexivity | now rewrite IH]. }
  rewrite L; lia.
Qed.

(** [%0wu] of a number below [10 ^ w] is exactly [w] characters wide. *)
Lemma fmt_0u_length (w : nat) (n : Z) :
  (1 <= w)%nat -> 0 <= n < 10 ^ Z.of_nat w -> n < 2 ^ 32 ->
  String.length (fmt_0u w n) = w.
Proof.
  intros Hw H H32; unfold fmt_0u; apply zero_pad_length.
  unfold fmt_u, to_unsigned; rewrite Z.mod_small by lia.
  pose proof (digits_width 10 w n "" Hw H) as L.
  change (String.length "") with 0%nat in L; lia.
Qed.

(** [%08X] is always eight characters wide. *)
Lemma fmt_08X_length (n : Z) : String.length (fmt_08X n) = 8%nat.
Proof.
  unfold fmt_08X; apply zero_pad_length.
  pose proof (digits_length 8 16 (to_unsigned n) "") as L.
  change (String.length "") with 0%nat in L; lia.
Qed.

End TextFacts.

Import TextFacts.

(** ** The node line: indentation, NodeId text, value text *)

Module RenderFacts.

Import Render.

Lemma indent_fill_checked : forallb indent_fill_check (seq 0 61) = true.
Proof. vm_compute; reflexivity. Qed.

(** The loop writes [indent[i]] and [indent[i+1]], so each iteration after
    the first adds one space: [depth + 1] spaces for a positive depth, and
    61 from depth 60 on. *)
Lemma indent_spaces (depth : Z) :
  indent depth =
  spaces (match indent_iterations depth with O => 0 | S k => S (S k) end).
Proof.
  unfold indent, indent_buffer.
  assert (B : (indent_iterations depth < 61)%nat) by (unfold indent_iterations; lia).
  pose proof indent_fill_checked as C.
  rewrite forallb_forall in C.
  specialize (C (indent_iterations depth)).
  unfold indent_fill_check in C; rewrite String.eqb_eq in C.
  rewrite C by (apply in_seq; lia).
  destruct (indent_iterations depth); reflexivity.
Qed.

Lemma indent_length (depth : Z) :
  0 < depth -> String.length (indent depth) = S (Z.to_nat (Z.min depth 60)).
Proof.
  intros H; rewrite indent_spaces; unfold indent_iterations.
  destruct (Z.to_nat (Z.min depth 60)) eqn:E; [lia|].
  apply spaces_length.
Qed.

(** C7.  At depth 2 the buffer holds three spaces, not the four that two
    spaces per level would give: the line of a node named Pump at depth 2
    starts with three spaces, and the indentation of any positive depth
    below the cap is [depth + 1] characters wide. *)
Theorem indent_depth_two_is_three_spaces :
  indent 2 = spaces 3 /\
  indent 2 <> spaces (2 * 2) /\
  name_text 2 (mkQualifiedName 0 "Pump") = "   Pump" /\
  (forall depth, 0 < depth <= 60 ->
     String.length (indent depth) = Z.to_nat (depth + 1)).
Proof.
  split; [reflexivity|].
  split; [intros H; change (indent 2) with (spaces 3) in H;
          apply spaces_injective in H; discriminate|].
  split; [reflexivity|].
  intros depth H; rewrite indent_length by lia; lia.
Qed.

Lemma nodeIdStr_prefix_fits (ns : Z) :
  snprintf 256 (" [ns=" ++ fmt_u ns ++ ";") = " [ns=" ++ fmt_u ns ++ ";".
Proof.
  unfold snprintf; apply truncate_fits.
  rewrite !length_append; pose proof (fmt_u_length ns); cbn [String.length]; lia.
Qed.

Lemma nodeIdStr_prefix_length (ns : Z) :
  String.length (" [ns=" ++ fmt_u ns ++ ";") = (String.length (fmt_u ns) + 6)%nat.
Proof. rewrite !length_append; cbn [String.length]; lia. Qed.

(** A Guid or ByteString identifier matches neither branch of the
    [if]/[else if]: the buffer keeps the prefix alone, with no kind tag, no
    value and no closing bracket. *)
Lemma nodeIdStr_other_kinds (ns : Z) (g : list Z) (b : UA_String) :
  nodeIdStr (mkNodeId ns (Id_Guid g)) = " [ns=" ++ fmt_u ns ++ ";" /\
  nodeIdStr (mkNodeId ns (Id_ByteString b)) = " [ns=" ++ fmt_u ns ++ ";".
Proof.
  unfold nodeIdStr; simpl identifier; simpl namespaceIndex; cbv zeta.
  rewrite nodeIdStr_prefix_fits; split; reflexivity.
Qed.

Lemma nodeIdStr_length (n : UA_NodeId) : (String.length (nodeIdStr n) <= 255)%nat.
Proof.
  unfold nodeIdStr; cbv zeta; rewrite nodeIdStr_prefix_fits.
  pose proof (nodeIdStr_prefix_length (namespaceIndex n)) as P.
  pose proof (fmt_u_length (namespaceIndex n)) as U.
  destruct (identifier n); unfold strncat; try (rewrite P; lia);
    rewrite length_append, P;
    match goal with |- context [truncate ?k ?t] => pose proof (truncate_length k t) end;
    lia.
Qed.

(** A String identifier renders as the first 255 characters of its full
    text, whether that text fits the buffer or not. *)
Lemma nodeIdStr_string_is_cut (ns : Z) (str : UA_String) :
  nodeIdStr (UA_NODEID_STRING ns str)
  = truncate 255 (" [ns=" ++ fmt_u ns ++ ";s=" ++ until_nul str ++ "]").
Proof.
  unfold nodeIdStr, UA_NODEID_STRING; simpl identifier; simpl namespaceIndex; cbv zeta.
  rewrite nodeIdStr_prefix_fits, fmt_prec_s_whole.
  pose proof (fmt_u_length ns) as U.
  pose proof (nodeIdStr_prefix_length ns) as P.
  unfold snprintf, strncat; rewrite truncate_truncate.
  replace (" [ns=" ++ fmt_u ns ++ ";s=" ++ until_nul str ++ "]")
    with ((" [ns=" ++ fmt_u ns ++ ";") ++ ("s=" ++ until_nul str ++ "]"))
    by (rewrite !append_assoc; reflexivity).
  rewrite (truncate_append 255 (" [ns=" ++ fmt_u ns ++ ";")) by (rewrite P; lia).
  f_equal; f_equal; rewrite P; lia.
Qed.

(** C6, as the code has it.  A Numeric identifier renders as
    [ [ns=N;i=V]]; a String identifier renders as [ [ns=N;s=V]], [V] being
    its text up to the first NUL byte, whenever the whole fits the 256-byte
    buffer; whether it fits or not, a String identifier renders as the
    first 255 characters of that text; and no NodeId text is ever longer
    than 255 characters. *)
Theorem nodeIdStr_shape (ns : Z) (numeric : Z) (str : UA_String)
    (Hfits : (String.length (fmt_u ns) + String.length (until_nul str) + 9 <= 255)%nat) :
  nodeIdStr (UA_NODEID_NUMERIC ns numeric) = " [ns=" ++ fmt_u ns ++ ";i=" ++ fmt_u numeric ++ "]" /\
  nodeIdStr (UA_NODEID_STRING ns str) = " [ns=" ++ fmt_u ns ++ ";s=" ++ until_nul str ++ "]" /\
  (forall n : UA_NodeId, (String.length (nodeIdStr n) <= 255)%nat) /\
  (forall (ns' : Z) (str' : UA_String),
     nodeIdStr (UA_NODEID_STRING ns' str')
     = truncate 255 (" [ns=" ++ fmt_u ns' ++ ";s=" ++ until_nul str' ++ "]")).
Proof.
  pose proof (fmt_u_length ns) as U.
  pose proof (nodeIdStr_prefix_length ns) as P.
  split; [|split; [|split; [exact nodeIdStr_length | exact nodeIdStr_string_is_cut]]].
  - unfold nodeIdStr, UA_NODEID_NUMERIC; simpl identifier; simpl namespaceIndex; cbv zeta.
    rewrite nodeIdStr_prefix_fits.
    pose proof (fmt_u_length numeric) as V.
    assert (T : snprintf 64 ("i=" ++ fmt_u numeric ++ "]") = "i=" ++ fmt_u numeric ++ "]").
    { unfold snprintf; apply truncate_fits; rewrite !length_append; cbn [String.length]; lia. }
    rewrite T; unfold strncat.
    rewrite truncate_fits by (rewrite P, !length_append; cbn [String.length]; lia).
    rewrite !append_assoc; reflexivity.
  - unfold nodeIdStr, UA_NODEID_STRING; simpl identifier; simpl namespaceIndex; cbv zeta.
    rewrite nodeIdStr_prefix_fits, fmt_prec_s_whole.
    assert (T : snprintf 256 ("s=" ++ until_nul str ++ "]") = "s=" ++ until_nul str ++ "]").
    { unfold snprintf; apply truncate_fits; rewrite !length_append; cbn [String.length]; lia. }
    rewrite T; unfold strncat.
    rewrite truncate_fits by (rewrite P, !length_append; cbn [String.length]; lia).
    rewrite !append_assoc; reflexivity.
Qed.

(** C6, the claim as stated fails.  A String identifier of 300 characters
    does not render as [[ns=1;s=<value>]]: the text is cut at 255
    characters and ends in the middle of the value, with no closing
    bracket. *)
Lemma nodeIdStr_long_string_is_cut :
  let n := UA_NODEID_STRING 1 Examples.long_identifier in
  nodeIdStr n <> " [ns=1;s=" ++ Examples.long_identifier ++ "]" /\
  nodeIdStr n = " [ns=1;s=" ++ truncate 246 Examples.long_identifier /\
  String.length (nodeIdStr n) = 255%nat /\
  String.get 254 (nodeIdStr n) = Some "a"%char.
Proof.
  cbv zeta; split; [|vm_compute; repeat split; reflexivity].
  intros H; apply (f_equal String.length) in H; vm_compute in H; discriminate.
Qed.

(** The Objects folder, and a String identifier that fits. *)
Lemma nodeIdStr_shape_witness :
  nodeIdStr (UA_NODEID_NUMERIC 0 UA_NS0ID_OBJECTSFOLDER) = " [ns=0;i=85]" /\
  nodeIdStr (UA_NODEID_STRING 2 "Demo.Static") = " [ns=2;s=Demo.Static]".
Proof.
  destruct (nodeIdStr_shape 0 UA_NS0ID_OBJECTSFOLDER "x" ltac:(vm_compute; lia)) as [H _].
  destruct (nodeIdStr_shape 2 0 "Demo.Static" ltac:(vm_compute; lia)) as [_ [H' _]].
  split; [exact H | exact H'].
Defined.

Section DecoderFacts.

Variable fmt_2f : UA_Float -> string.
Variable UA_DateTime_toStruct : UA_DateTime -> UA_DateTimeStruct.

Local Abbreviation decode := (Render.decode fmt_2f UA_DateTime_toStruct).

Lemma fmt_datetime_length (dts : UA_DateTimeStruct) :
  fits_widths dts -> String.length (fmt_datetime dts) = 19%nat.
Proof.
  intros (Hy & Hmo & Hd & Hh & Hmi & Hs); unfold fmt_datetime.
  rewrite !length_append.
  rewrite (fmt_0u_length 4) by (try change (10 ^ Z.of_nat 4) with 10000; lia).
  rewrite !(fmt_0u_length 2) by (try change (10 ^ Z.of_nat 2) with 100; lia).
  reflexivity.
Qed.

(** C5.  [decode] is a total function to text, and maps a Boolean to
    true/false, a UInt16 or UInt32 to its decimal numeral, a Float to what
    the [%.2f] conversion gives, a DateTime to the six fields of its
    calendar breakdown as [YYYY-MM-DD HH:MM:SS] (19 characters; the
    breakdown of 2025-01-01 00:00:00 gives that text), and any other type
    to its name in brackets. *)
Theorem decode_table (b : bool) (u16 u32 : Z) (f : UA_Float) (t : UA_DateTime)
    (typeName : string)
    (H16 : 0 <= u16 < 2 ^ 16) (H32 : 0 <= u32 < 2 ^ 32) :
  decode (Scalar_Boolean b) = (if b then "true" else "false") /\
  (decode (Scalar_UInt16 u16) = fmt_u u16 /\ decimal_value (decode (Scalar_UInt16 u16)) = u16) /\
  (decode (Scalar_UInt32 u32) = fmt_u u32 /\ decimal_value (decode (Scalar_UInt32 u32)) = u32) /\
  decode (Scalar_Float f) = fmt_2f f /\
  (let dts := UA_DateTime_toStruct t in
   decode (Scalar_DateTime t) =
     fmt_0u 4 (dts_year dts) ++ "-" ++ fmt_0u 2 (dts_month dts) ++ "-" ++ fmt_0u 2 (dts_day dts)
     ++ " " ++ fmt_0u 2 (dts_hour dts) ++ ":" ++ fmt_0u 2 (dts_min dts) ++ ":" ++ fmt_0u 2 (dts_sec dts) /\
   (fits_widths dts -> String.length (decode (Scalar_DateTime t)) = 19%nat) /\
   (dts = mkDateTimeStruct 0 0 0 1 1 2025 -> decode (Scalar_DateTime t) = "2025-01-01 00:00:00")) /\
  decode (Other_Type typeName) = "[" ++ typeName ++ "]".
Proof.
  split; [reflexivity|].
  split; [split; [reflexivity | apply fmt_u_decimal; lia]|].
  split; [split; [reflexivity | apply fmt_u_decimal; lia]|].
  split; [reflexivity|].
  split; [|reflexivity].
  cbv zeta; split; [reflexivity|].
  split; [apply fmt_datetime_length|].
  intros E; simpl; rewrite E; reflexivity.
Qed.

End DecoderFacts.

(** The table on concrete values, with a Gregorian calendar and a
    round-to-nearest [%.2f]. *)
Lemma decode_table_witness :
  Examples.calendar Examples.new_year_2025 = mkDateTimeStruct 0 0 0 1 1 2025 /\
  decode Examples.two_decimals Examples.calendar (Scalar_DateTime Examples.new_year_2025)
    = "2025-01-01 00:00:00" /\
  decode Examples.two_decimals Examples.calendar (Scalar_UInt16 65535) = "65535" /\
  decode Examples.two_decimals Examples.calendar (Scalar_UInt32 4294967295) = "4294967295" /\
  decode Examples.two_decimals Examples.calendar (Scalar_Float Examples.pi_single) = "3.14".
Proof.
  pose proof (decode_table Examples.two_decimals Examples.calendar true 65535 4294967295
                Examples.pi_single Examples.new_year_2025 "String"
                ltac:(lia) ltac:(lia)) as T.
  destruct T as (_ & (U16 & _) & (U32 & _) & F & (_ & _ & D) & _).
  split; [reflexivity|].
  split; [apply D; reflexivity|].
  split; [exact U16|]. split; [exact U32 | exact F].
Defined.

End RenderFacts.

(** ** Runs and traces *)

Module RunFacts.

Section Laws.

Context {S : Type}.

Lemma result_eta {A} (r : Result S A) : r = mkResult (trace r) (final r) (outcome r).
Proof. destruct r; reflexivity. Qed.

Lemma bind_done {A B} (m : M S A) (k : A -> M S B) (s : S) (a : A) :
  outcome (m s) = Some a ->
  bind m k s = mkResult (trace (m s) ++ trace (k a (final (m s))))
                        (final (k a (final (m s))))
                        (outcome (k a (final (m s)))).
Proof. intros H; unfold bind; rewrite H; reflexivity. Qed.

Lemma bind_exhausted {A B} (m : M S A) (k : A -> M S B) (s : S) :
  outcome (m s) = None ->
  bind m k s = mkResult (trace (m s)) (final (m s)) None.
Proof. intros H; unfold bind; rewrite H; reflexivity. Qed.

Lemma for_each_app {A} (body : A -> M S unit) (l1 l2 : list A) (s : S) :
  for_each body (l1 ++ l2) s = bind (for_each body l1) (fun _ => for_each body l2) s.
Proof.
  revert s; induction l1 as [|x l1 IH]; intros s.
  - simpl; unfold bind, ret; simpl; apply result_eta.
  - simpl; destruct (outcome (body x s)) as [[]|] eqn:E.
    + unfold bind; rewrite E; simpl.
      rewrite IH; unfold bind.
      destruct (outcome (for_each body l1 (final (body x s)))) as [[]|]; simpl;
        rewrite ?app_assoc; reflexivity.
    + unfold bind; rewrite E; simpl; reflexivity.
Qed.

Lemma printf_then {A} (text : string) (k : M S A) (s : S) :
  bind (printf text) (fun _ => k) s =
  mkResult (Printf text :: trace (k s)) (final (k s)) (outcome (k s)).
Proof. reflexivity. Qed.

End Laws.

Lemma stdout_app (t1 t2 : list Event) : stdout (t1 ++ t2) = stdout t1 ++ stdout t2.
Proof.
  induction t1 as [|[] t1 IH]; simpl; try assumption; [reflexivity|].
  rewrite IH, append_assoc; reflexivity.
Qed.

Lemma calls_app (t1 t2 : list Event) : calls (t1 ++ t2) = (calls t1 ++ calls t2)%list.
Proof. induction t1 as [|[] t1 IH]; simpl; try assumption; [reflexivity | now rewrite IH]. Qed.

Lemma calls_at_app (d : Z) (t1 t2 : list Event) :
  calls_at d (t1 ++ t2) = (calls_at d t1 ++ calls_at d t2)%list.
Proof.
  induction t1 as [|[] t1 IH]; simpl; try assumption; [reflexivity|].
  destruct (depth =? d); simpl; now rewrite IH.
Qed.

Lemma browsed_app (t1 t2 : list Event) : browsed (t1 ++ t2) = (browsed t1 ++ browsed t2)%list.
Proof. induction t1 as [|[] t1 IH]; simpl; try assumption; [reflexivity | now rewrite IH]. Qed.

Lemma round_trips_app (t1 t2 : list Event) :
  round_trips (t1 ++ t2) = (round_trips t1 ++ round_trips t2)%list.
Proof. apply filter_app. Qed.

(** The calls at one depth are those of [calls] with that depth. *)
Lemma calls_at_calls (d : Z) (t : list Event) :
  calls_at d t = map fst (filter (fun c => snd c =? d) (calls t)).
Proof.
  induction t as [|[] t IH]; simpl; try assumption; [reflexivity|].
  destruct (depth =? d); simpl; now rewrite IH.
Qed.

End RunFacts.

Import RunFacts.

(** ** One call of [browseAndReadNode] *)

Section BrowserFacts.

Context {S : Type}.
Variable client : UA_Client S.
Variable fmt_2f : UA_Float -> string.
Variable UA_DateTime_toStruct : UA_DateTime -> UA_DateTimeStruct.

Import Render.

Local Abbreviation call := (browseAndReadNode client fmt_2f UA_DateTime_toStruct).
Local Abbreviation siblings := (browse_siblings client fmt_2f UA_DateTime_toStruct).
Local Abbreviation attributes := (read_attributes client).
Local Abbreviation node_print := (print_node client fmt_2f UA_DateTime_toStruct).
Local Abbreviation decode := (Render.decode fmt_2f UA_DateTime_toStruct).

(** The attribute fetch, written out. *)
Lemma read_attributes_run (n : UA_NodeId) (s : S) :
  attributes n s =
  let c := UA_Client_readNodeClassAttribute client n s in
  if is_good (fst (fst c)) then
    let b := UA_Client_readBrowseNameAttribute client n (snd c) in
    mkResult [ReadNodeClass n; ReadBrowseName n] (snd b)
             (Some (if is_good (fst (fst b)) then Some (snd (fst c), snd (fst b)) else None))
  else mkResult [ReadNodeClass n] (snd c) (Some None).
Proof.
  unfold read_attributes, bind, round_trip, ret.
  destruct (UA_Client_readNodeClassAttribute client n s) as [[st cls] s1]; simpl.
  destruct (is_good st); simpl; [|reflexivity].
  destruct (UA_Client_readBrowseNameAttribute client n s1) as [[st2 bn] s2]; simpl.
  destruct (is_good st2); reflexivity.
Qed.

(** It always returns, prints nothing, and neither browses nor recurses. *)
Lemma read_attributes_returns (n : UA_NodeId) (s : S) :
  exists a, outcome (attributes n s) = Some a.
Proof.
  rewrite read_attributes_run; cbv zeta.
  destruct (is_good _); simpl; eauto.
Qed.

Lemma read_attributes_quiet (n : UA_NodeId) (s : S) :
  stdout (trace (attributes n s)) = "" /\
  calls (trace (attributes n s)) = [] /\
  browsed (trace (attributes n s)) = [] /\
  forall d, calls_at d (trace (attributes n s)) = [].
Proof.
  rewrite read_attributes_run; cbv zeta.
  destruct (is_good _); simpl; auto.
Qed.

(** A failed read of either attribute gives [None]. *)
Lemma read_attributes_failure (n : UA_NodeId) (s : S) :
  is_good (fst (fst (UA_Client_readNodeClassAttribute client n s))) = false \/
  is_good (fst (fst (UA_Client_readBrowseNameAttribute client n
                       (snd (UA_Client_readNodeClassAttribute client n s))))) = false ->
  outcome (attributes n s) = Some None.
Proof.
  intros H; rewrite read_attributes_run; cbv zeta.
  destruct (is_good (fst (fst (UA_Client_readNodeClassAttribute client n s)))); simpl;
    [|reflexivity].
  destruct H as [H | H]; [discriminate | rewrite H; reflexivity].
Qed.

(** The value part of a variable's line. *)
Lemma print_variable_run (n : UA_NodeId) (s : S) :
  let rv := UA_Client_readValueAttribute client n s in
  let r := print_variable client fmt_2f UA_DateTime_toStruct n s in
  outcome r = Some tt /\ final r = snd rv /\
  calls (trace r) = [] /\ browsed (trace r) = [] /\
  (forall d, calls_at d (trace r) = []) /\
  round_trips (trace r) = [ReadValue n] /\
  stdout (trace r) =
    " (Variable)" ++
    match is_good (fst (fst rv)), snd (fst rv) with
    | true, Some typed => " = " ++ decode typed
    | _, _ => read_error_text (fst (fst rv))
    end ++ LF.
Proof.
  cbv zeta; unfold print_variable, bind, round_trip, printf, emit, ret; simpl.
  destruct (UA_Client_readValueAttribute client n s) as [[st value] s1]; simpl.
  destruct (is_good st), value; simpl; rewrite ?append_nil_r; repeat split; reflexivity.
Qed.

(** The printing of a node's line always returns, and neither browses nor
    recurses; only a variable's line costs a round trip. *)
Lemma print_node_returns (n : UA_NodeId) (d : Z) (cls : UA_NodeClass)
    (bn : UA_QualifiedName) (s : S) :
  let r := node_print n d cls bn s in
  outcome r = Some tt /\ calls (trace r) = [] /\ browsed (trace r) = [] /\
  (forall d', calls_at d' (trace r) = []).
Proof.
  cbv zeta; unfold print_node; rewrite !printf_then.
  cbn [trace final outcome calls browsed calls_at].
  pose proof (print_variable_run n s) as V; cbv zeta in V.
  destruct V as (Vo & _ & Vc & Vb & Va & _).
  destruct cls; try (repeat split; reflexivity).
  unfold print_class; auto.
Qed.

Lemma print_node_plain (n : UA_NodeId) (d : Z) (cls : UA_NodeClass)
    (bn : UA_QualifiedName) (s : S) :
  cls <> UA_NODECLASS_VARIABLE ->
  node_print n d cls bn s =
  mkResult [Printf (name_text d bn); Printf (nodeId_text n); Printf (class_label cls ++ LF)]
           s (Some tt).
Proof. intros H; destruct cls; try reflexivity; contradiction. Qed.

Lemma print_node_variable (n : UA_NodeId) (d : Z) (bn : UA_QualifiedName) (s : S) :
  let rv := UA_Client_readValueAttribute client n s in
  let r := node_print n d UA_NODECLASS_VARIABLE bn s in
  final r = snd rv /\
  round_trips (trace r) = [ReadValue n] /\
  stdout (trace r) =
    name_text d bn ++ nodeId_text n ++ " (Variable)" ++
    match is_good (fst (fst rv)), snd (fst rv) with
    | true, Some typed => " = " ++ decode typed
    | _, _ => read_error_text (fst (fst rv))
    end ++ LF.
Proof.
  cbv zeta; unfold print_node, print_class; rewrite !printf_then.
  unfold round_trips; cbn [trace final outcome stdout filter is_round_trip].
  pose proof (print_variable_run n s) as V; cbv zeta in V.
  destruct V as (_ & Vf & _ & _ & _ & Vr & Vs).
  rewrite Vs; repeat split; assumption.
Qed.

(** The loop over the references, one reference at a time. *)
Lemma siblings_nil (fuel : nat) (d : Z) (v : bool) (s : S) :
  siblings fuel [] d v s = mkResult [] s (Some tt).
Proof. reflexivity. Qed.

Lemma siblings_cons (fuel : nat) (ref : UA_ReferenceDescription)
    (rest : list UA_ReferenceDescription) (d : Z) (v : bool) (s : S) :
  siblings fuel (ref :: rest) d v s =
  if isForward ref then
    bind (call fuel (nodeId ref) d v) (fun _ => siblings fuel rest d v) s
  else siblings fuel rest d v s.
Proof.
  unfold browse_siblings, browse_references; simpl.
  destruct (isForward ref); [reflexivity|].
  unfold bind, ret; simpl.
  symmetry; apply result_eta.
Qed.

Lemma siblings_app (fuel : nat) (before after : list UA_ReferenceDescription)
    (d : Z) (v : bool) (s : S) :
  siblings fuel (before ++ after) d v s =
  bind (siblings fuel before d v) (fun _ => siblings fuel after d v) s.
Proof. unfold browse_siblings, browse_references; apply for_each_app. Qed.

(** The browse of the children, written out. *)
Lemma browse_children_run (fuel : nat) (n : UA_NodeId) (d : Z) (v : bool) (s : S) :
  browse_children client (fun child => call fuel child (d + 1) v) n d v s =
  let b := UA_Client_Service_browse client n s in
  match references_to_browse (fst b) with
  | [] => mkResult [Browse n] (snd b) (Some tt)
  | (_ :: _) as refs =>
      let found := if v && (d =? 0) then [Printf (found_text (List.length refs))] else [] in
      let rl := siblings fuel refs (d + 1) v (snd b) in
      mkResult (Browse n :: found ++ trace rl) (final rl) (outcome rl)
  end.
Proof.
  unfold browse_children, bind at 1, round_trip.
  destruct (UA_Client_Service_browse client n s) as [bResp s1]; simpl.
  destruct (references_to_browse bResp) as [|ref refs]; [reflexivity|].
  fold (browse_siblings client fmt_2f UA_DateTime_toStruct fuel (ref :: refs) (d + 1) v).
  destruct (v && (d =? 0)); unfold bind, printf, emit, ret; simpl; reflexivity.
Qed.

(** One call, written out: the entry, the attribute fetch, and, when that
    succeeded, the node's line and the browse of its children. *)
Lemma call_run (fuel : nat) (n : UA_NodeId) (d : Z) (v : bool) (s : S) :
  call (Datatypes.S fuel) n d v s =
  let ra := attributes n s in
  match outcome ra with
  | Some (Some (cls, bn)) =>
      let rp := node_print n d cls bn (final ra) in
      let rc := if browses_children cls
                then browse_children client (fun child => call fuel child (d + 1) v) n d v (final rp)
                else mkResult [] (final rp) (Some tt) in
      mkResult (Enter n d :: trace ra ++ trace rp ++ trace rc) (final rc) (outcome rc)
  | _ => mkResult (Enter n d :: trace ra) (final ra) (Some tt)
  end.
Proof.
  cbv zeta; simpl browseAndReadNode.
  unfold bind at 1, emit; simpl.
  destruct (read_attributes_returns n s) as [a Ha].
  rewrite (bind_done _ _ _ _ Ha); simpl; rewrite Ha.
  destruct a as [[cls bn]|]; [|unfold ret; simpl; rewrite app_nil_r; reflexivity].
  destruct (print_node_returns n d cls bn (final (attributes n s))) as (Po & _).
  rewrite (bind_done _ _ _ _ Po); simpl.
  destruct (browses_children cls); reflexivity.
Qed.

(** A call that returns lets the loop go on with the next reference: the
    trace of the loop is that of the references before it, then the call's,
    then that of the references after it. *)
Lemma siblings_around (fuel : nat) (before after : list UA_ReferenceDescription)
    (x : UA_NodeId) (d : Z) (v : bool) (s0 : S) :
  outcome (siblings fuel before d v s0) = Some tt ->
  outcome (call fuel x d v (final (siblings fuel before d v s0))) = Some tt ->
  let rb := siblings fuel before d v s0 in
  let r := call fuel x d v (final rb) in
  let ra := siblings fuel after d v (final r) in
  let rs := siblings fuel (before ++ mkReference true x :: after) d v s0 in
  trace rs = (trace rb ++ trace r ++ trace ra)%list /\
  outcome rs = outcome ra /\ final rs = final ra.
Proof.
  intros Hb Hx; cbv zeta.
  rewrite siblings_app, (bind_done _ _ _ _ Hb).
  cbn [trace final outcome].
  rewrite siblings_cons; cbn [isForward nodeId].
  rewrite (bind_done _ _ _ _ Hx); cbn [trace final outcome].
  repeat split; reflexivity.
Qed.

(** C3.  When the node-class read of a node fails, or its browse-name read
    does, the call returns at once: it prints nothing, makes no browse
    round trip and no recursive call, so nothing of the node's subtree is
    visited; and the loop of the parent goes on: whatever the references
    before it printed stays, and the references after it are run next. *)
Theorem failed_attribute_read_skips_node (fuel : nat) (x : UA_NodeId) (d : Z) (v : bool)
    (s : S)
    (Hfail :
       is_good (fst (fst (UA_Client_readNodeClassAttribute client x s))) = false \/
       is_good (fst (fst (UA_Client_readBrowseNameAttribute client x
                            (snd (UA_Client_readNodeClassAttribute client x s))))) = false) :
  let r := call (Datatypes.S fuel) x d v s in
  (outcome r = Some tt /\ stdout (trace r) = "" /\
   calls (trace r) = [(x, d)] /\ browsed (trace r) = []) /\
  forall (before after : list UA_ReferenceDescription) (s0 : S),
    outcome (siblings (Datatypes.S fuel) before d v s0) = Some tt ->
    final (siblings (Datatypes.S fuel) before d v s0) = s ->
    let rb := siblings (Datatypes.S fuel) before d v s0 in
    let ra := siblings (Datatypes.S fuel) after d v (final r) in
    let rs := siblings (Datatypes.S fuel) (before ++ mkReference true x :: after) d v s0 in
    trace rs = (trace rb ++ trace r ++ trace ra)%list /\
    stdout (trace rs) = stdout (trace rb) ++ stdout (trace ra) /\
    outcome rs = outcome ra /\ final rs = final ra.
Proof.
  cbv zeta.
  pose proof (read_attributes_failure x s Hfail) as Ha.
  destruct (read_attributes_quiet x s) as (Qs & Qc & Qb & _).
  assert (R : call (Datatypes.S fuel) x d v s =
              mkResult (Enter x d :: trace (attributes x s)) (final (attributes x s)) (Some tt)).
  { rewrite call_run; cbv zeta; rewrite Ha; reflexivity. }
  assert (Hs : stdout (trace (call (Datatypes.S fuel) x d v s)) = "").
  { rewrite R; cbn [trace stdout]; exact Qs. }
  split.
  - rewrite R; cbn [trace outcome stdout calls browsed].
    rewrite Qs, Qc, Qb; repeat split; reflexivity.
  - intros before after s0 Hb Hf.
    assert (Hx : outcome (call (Datatypes.S fuel) x d v
                            (final (siblings (Datatypes.S fuel) before d v s0))) = Some tt).
    { rewrite Hf, R; reflexivity. }
    destruct (siblings_around (Datatypes.S fuel) before after x d v s0 Hb Hx) as (T & O & F).
    rewrite Hf in T, O, F.
    split; [exact T|]. split; [|split; assumption].
    rewrite T, !stdout_app, Hs; reflexivity.
Qed.

(** C10.  An Object or View node whose browse comes back with no result
    (the service call failed) or with a first result that has no reference
    is a leaf: the call returns, its output is the node's own line, it
    makes the one browse round trip and no recursive call; and the loop of
    the parent goes on with the references after it. *)
Theorem childless_browse_renders_leaf (fuel : nat) (n : UA_NodeId) (d : Z) (v : bool)
    (s : S) (cls : UA_NodeClass) (bn : UA_QualifiedName)
    (Hattr : outcome (attributes n s) = Some (Some (cls, bn)))
    (Hcls : cls = UA_NODECLASS_OBJECT \/ cls = UA_NODECLASS_VIEW)
    (Hnone :
       let bResp := fst (UA_Client_Service_browse client n (final (attributes n s))) in
       results bResp = [] \/
       exists result0 rest, results bResp = result0 :: rest /\ references result0 = []) :
  let r := call (Datatypes.S fuel) n d v s in
  (outcome r = Some tt /\
   stdout (trace r) = name_text d bn ++ nodeId_text n ++ class_label cls ++ LF /\
   calls (trace r) = [(n, d)] /\ browsed (trace r) = [n]) /\
  forall (before after : list UA_ReferenceDescription) (s0 : S),
    outcome (siblings (Datatypes.S fuel) before d v s0) = Some tt ->
    final (siblings (Datatypes.S fuel) before d v s0) = s ->
    let rb := siblings (Datatypes.S fuel) before d v s0 in
    let ra := siblings (Datatypes.S fuel) after d v (final r) in
    let rs := siblings (Datatypes.S fuel) (before ++ mkReference true n :: after) d v s0 in
    stdout (trace rs) = stdout (trace rb) ++ stdout (trace r) ++ stdout (trace ra) /\
    outcome rs = outcome ra /\ final rs = final ra.
Proof.
  cbv zeta in *.
  destruct (read_attributes_quiet n s) as (Qs & Qc & Qb & _).
  assert (Hv : cls <> UA_NODECLASS_VARIABLE) by (destruct Hcls; subst cls; discriminate).
  assert (Hb : browses_children cls = true) by (destruct Hcls; subst cls; reflexivity).
  assert (Hr : references_to_browse
                 (fst (UA_Client_Service_browse client n (final (attributes n s)))) = []).
  { unfold references_to_browse.
    destruct Hnone as [E | (r0 & rest & E & E0)]; rewrite E; [reflexivity | exact E0]. }
  assert (R : call (Datatypes.S fuel) n d v s =
              mkResult (Enter n d :: trace (attributes n s) ++
                        [Printf (name_text d bn); Printf (nodeId_text n);
                         Printf (class_label cls ++ LF)] ++ [Browse n])
                       (snd (UA_Client_Service_browse client n (final (attributes n s))))
                       (Some tt)).
  { rewrite call_run; cbv zeta; rewrite Hattr, Hb.
    rewrite (print_node_plain n d cls bn _ Hv); cbn [trace final outcome].
    rewrite browse_children_run; cbv zeta; rewrite Hr; reflexivity. }
  assert (Hout : stdout (trace (call (Datatypes.S fuel) n d v s))
                 = name_text d bn ++ nodeId_text n ++ class_label cls ++ LF).
  { rewrite R; cbn [trace stdout]; rewrite stdout_app, Qs.
    cbn [stdout app]; rewrite !append_nil_r; reflexivity. }
  split.
  - split; [rewrite R; reflexivity|]. split; [exact Hout|].
    rewrite R; cbn [trace calls browsed]; rewrite calls_app, browsed_app, Qc, Qb.
    split; reflexivity.
  - intros before after s0 Hbefore Hf.
    assert (Hx : outcome (call (Datatypes.S fuel) n d v
                            (final (siblings (Datatypes.S fuel) before d v s0))) = Some tt).
    { rewrite Hf, R; reflexivity. }
    destruct (siblings_around (Datatypes.S fuel) before after n d v s0 Hbefore Hx) as (T & O & F).
    rewrite Hf in T, O, F.
    split; [|split; assumption].
    rewrite T, !stdout_app; reflexivity.
Qed.

(** C4, as the code has it.  For a Variable node the call returns after one
    value read, without browsing or recursing, and its line ends with the
    decoded value exactly when the read returned the Good status and a
    non-empty variant; otherwise, that is when the read failed or the value
    is empty, the line ends with the read-error text built from the raw
    status: the eight hexadecimal digits of the 32-bit status code. *)
Theorem variable_line_value_or_read_error (fuel : nat) (n : UA_NodeId) (d : Z) (v : bool)
    (s : S) (bn : UA_QualifiedName)
    (Hattr : outcome (attributes n s) = Some (Some (UA_NODECLASS_VARIABLE, bn))) :
  let rv := UA_Client_readValueAttribute client n (final (attributes n s)) in
  let readStatus := fst (fst rv) in
  let value := snd (fst rv) in
  let r := call (Datatypes.S fuel) n d v s in
  outcome r = Some tt /\ final r = snd rv /\
  calls (trace r) = [(n, d)] /\ browsed (trace r) = [] /\
  stdout (trace r) =
    name_text d bn ++ nodeId_text n ++ " (Variable)" ++
    match is_good readStatus, value with
    | true, Some typed => " = " ++ decode typed
    | _, _ => " [Read error: 0x" ++ fmt_08X readStatus ++ "]"
    end ++ LF /\
  String.length (fmt_08X readStatus) = 8%nat /\
  (0 <= readStatus < 2 ^ 32 -> hex_value (fmt_08X readStatus) = readStatus).
Proof.
  cbv zeta.
  destruct (read_attributes_quiet n s) as (Qs & Qc & Qb & _).
  destruct (print_node_returns n d UA_NODECLASS_VARIABLE bn (final (attributes n s)))
    as (Po & Pc & Pb & _).
  destruct (print_node_variable n d bn (final (attributes n s))) as (Pf & _ & Ps).
  rewrite call_run; cbv zeta; rewrite Hattr; cbn [browses_children trace final outcome].
  rewrite app_nil_r.
  split; [reflexivity|]. split; [exact Pf|].
  cbn [calls browsed stdout]; rewrite calls_app, browsed_app, stdout_app, Qs, Qc, Qb, Pc, Pb, Ps.
  split; [reflexivity|]. split; [reflexivity|]. split; [reflexivity|].
  split; [apply fmt_08X_length | apply fmt_08X_hex].
Qed.

(** *** The calls a call makes *)

(** The trace of a call, by cases on what it found. *)
Lemma call_trace (fuel : nat) (n : UA_NodeId) (d : Z) (v : bool) (s : S) :
  let r := call (Datatypes.S fuel) n d v s in
  let ra := attributes n s in
  match outcome ra with
  | Some (Some (cls, bn)) =>
      let rp := node_print n d cls bn (final ra) in
      if browses_children cls then
        let b := UA_Client_Service_browse client n (final ra) in
        match references_to_browse (fst b) with
        | [] =>
            trace r = (Enter n d :: trace ra ++ trace rp ++ [Browse n])%list /\
            outcome r = Some tt /\ final r = snd b
        | (_ :: _) as refs =>
            let found := if v && (d =? 0) then [Printf (found_text (List.length refs))] else [] in
            let rl := siblings fuel refs (d + 1) v (snd b) in
            trace r = (Enter n d :: trace ra ++ trace rp ++ Browse n :: found ++ trace rl)%list /\
            outcome r = outcome rl /\ final r = final rl
        end
      else
        trace r = (Enter n d :: trace ra ++ trace rp)%list /\
        outcome r = Some tt /\ final r = final rp
  | _ =>
      trace r = Enter n d :: trace ra /\ outcome r = Some tt /\ final r = final ra
  end.
Proof.
  cbv zeta; rewrite call_run; cbv zeta.
  destruct (outcome (attributes n s)) as [[[cls bn]|]|] eqn:Ha; try (repeat split; reflexivity).
  destruct (browses_children cls) eqn:Hb.
  - assert (Hv : cls <> UA_NODECLASS_VARIABLE) by (intros E; subst cls; discriminate).
    rewrite (print_node_plain n d cls bn _ Hv); cbn [trace final outcome].
    rewrite browse_children_run; cbv zeta.
    destruct (references_to_browse _) as [|ref refs]; repeat split; reflexivity.
  - cbn [trace final outcome]; rewrite app_nil_r; repeat split; reflexivity.
Qed.

(** Every call made during a run at depth [d] is at depth [d] or deeper. *)
Lemma siblings_depths_from (fuel : nat)
    (IH : forall n d v s, Forall (fun c => d <= snd c) (calls (trace (call fuel n d v s))))
    (refs : list UA_ReferenceDescription) (d : Z) (v : bool) (s : S) :
  Forall (fun c => d <= snd c) (calls (trace (siblings fuel refs d v s))).
Proof.
  revert s; induction refs as [|ref refs IHrefs]; intros s; [constructor|].
  rewrite siblings_cons; destruct (isForward ref); [|apply IHrefs].
  unfold bind; destruct (outcome (call fuel (nodeId ref) d v s)); cbn [trace]; [|apply IH].
  rewrite calls_app; apply Forall_app; split; [apply IH | apply IHrefs].
Qed.

Lemma call_depths (fuel : nat) (n : UA_NodeId) (d : Z) (v : bool) (s : S) :
  Forall (fun c => d <= snd c) (calls (trace (call fuel n d v s))).
Proof.
  revert n d v s; induction fuel as [|fuel IH]; intros n d v s; [constructor|].
  pose proof (call_trace fuel n d v s) as T; cbv zeta in T.
  destruct (read_attributes_quiet n s) as (_ & Qc & _ & _).
  destruct (outcome (attributes n s)) as [[[cls bn]|]|];
    try (destruct T as (T & _); rewrite T; cbn [calls]; rewrite Qc;
         constructor; [simpl; lia | constructor]).
  destruct (print_node_returns n d cls bn (final (attributes n s))) as (_ & Pc & _ & _).
  destruct (browses_children cls).
  - destruct (references_to_browse _) as [|ref refs].
    + destruct T as (T & _); rewrite T; cbn [calls]; rewrite !calls_app, Qc, Pc.
      constructor; [simpl; lia | constructor].
    + destruct T as (T & _); rewrite T; cbn [calls].
      rewrite calls_app, Qc, calls_app, Pc; cbn [calls app]; rewrite calls_app.
      constructor; [simpl; lia|].
      apply Forall_app; split; [destruct (v && (d =? 0)); constructor|].
      eapply Forall_impl; [|apply (siblings_depths_from fuel IH)].
      simpl; intros; lia.
  - destruct T as (T & _); rewrite T; cbn [calls]; rewrite calls_app, Qc, Pc.
    constructor; [simpl; lia | constructor].
Qed.

Lemma siblings_depths (fuel : nat) (refs : list UA_ReferenceDescription) (d : Z) (v : bool)
    (s : S) :
  Forall (fun c => d <= snd c) (calls (trace (siblings fuel refs d v s))).
Proof. apply siblings_depths_from; apply call_depths. Qed.

(** A call is the only one at its own depth within its run. *)
Lemma call_own_depth (fuel : nat) (n : UA_NodeId) (d : Z) (v : bool) (s : S) :
  exists deeper,
    calls (trace (call (Datatypes.S fuel) n d v s)) = (n, d) :: deeper /\
    Forall (fun c => d + 1 <= snd c) deeper.
Proof.
  pose proof (call_trace fuel n d v s) as T; cbv zeta in T.
  destruct (read_attributes_quiet n s) as (_ & Qc & _ & _).
  destruct (outcome (attributes n s)) as [[[cls bn]|]|];
    try (destruct T as (T & _); exists []; rewrite T; cbn [calls]; rewrite Qc;
         split; [reflexivity | constructor]).
  destruct (print_node_returns n d cls bn (final (attributes n s))) as (_ & Pc & _ & _).
  destruct (browses_children cls).
  - destruct (references_to_browse _) as [|ref refs].
    + destruct T as (T & _); exists []; rewrite T; cbn [calls]; rewrite !calls_app, Qc, Pc.
      split; [reflexivity | constructor].
    + destruct T as (T & _).
      exists (calls (trace (siblings fuel (ref :: refs) (d + 1) v
                       (snd (UA_Client_Service_browse client n (final (attributes n s))))))).
      split; [|apply siblings_depths].
      rewrite T; cbn [calls]; rewrite calls_app, Qc, calls_app, Pc; cbn [calls app].
      rewrite calls_app; destruct (v && (d =? 0)); reflexivity.
  - destruct T as (T & _); exists []; rewrite T; cbn [calls]; rewrite calls_app, Qc, Pc.
    split; [reflexivity | constructor].
Qed.

Lemma call_calls_at_own_depth (fuel : nat) (n : UA_NodeId) (d : Z) (v : bool) (s : S) :
  calls_at d (trace (call (Datatypes.S fuel) n d v s)) = [n].
Proof.
  destruct (call_own_depth fuel n d v s) as (deeper & E & D).
  rewrite calls_at_calls, E; simpl; rewrite Z.eqb_refl; simpl; f_equal.
  clear E; induction deeper as [|c l IH]; [reflexivity|].
  inversion D; subst; simpl.
  destruct (snd c =? d) eqn:Q; [apply Z.eqb_eq in Q; lia | auto].
Qed.

(** The calls the loop makes at its own depth are the targets of the forward
    references, in the order of the response: all of them when the loop
    returns, and the first few when the stack ran out on the way. *)
Lemma siblings_calls_at (fuel : nat) (refs : list UA_ReferenceDescription) (d : Z) (v : bool)
    (s : S) :
  exists unreached,
    map nodeId (filter isForward refs)
      = (calls_at d (trace (siblings fuel refs d v s)) ++ unreached)%list /\
    (outcome (siblings fuel refs d v s) = Some tt -> unreached = []).
Proof.
  revert s; induction refs as [|ref refs IH]; intros s.
  - exists []; split; reflexivity.
  - rewrite siblings_cons; cbn [filter].
    destruct (isForward ref); [|apply IH].
    cbn [map]; unfold bind.
    destruct fuel as [|fuel].
    + exists (nodeId ref :: map nodeId (filter isForward refs)); split; [reflexivity|].
      cbn; discriminate.
    + destruct (outcome (call (Datatypes.S fuel) (nodeId ref) d v s)) as [[]|] eqn:E;
        cbn [trace outcome].
      * destruct (IH (final (call (Datatypes.S fuel) (nodeId ref) d v s))) as (u & Hu & Hd).
        exists u; rewrite calls_at_app, call_calls_at_own_depth; cbn [app].
        split; [f_equal; exact Hu | exact Hd].
      * exists (map nodeId (filter isForward refs)).
        rewrite call_calls_at_own_depth; split; [reflexivity | discriminate].
Qed.

(** C2.  Whatever node a call is made for: when its class is neither
    Object nor View (or its attributes cannot be read) the call makes no
    browse round trip and no recursive call; when it is Object or View the
    call browses the node, and the calls it makes one level down are the
    targets of the references with [isForward] set, in the order of the
    response (all of them once the call has returned).  Every other call of
    the run is deeper still, so a reference that is not forward is never
    the reason for a call. *)
Theorem children_are_the_forward_references (fuel : nat) (n : UA_NodeId) (d : Z) (v : bool)
    (s : S) :
  let r := call (Datatypes.S fuel) n d v s in
  let ra := attributes n s in
  let refs := references_to_browse (fst (UA_Client_Service_browse client n (final ra))) in
  match outcome ra with
  | Some (Some ((UA_NODECLASS_OBJECT | UA_NODECLASS_VIEW), _)) =>
      (exists later, browsed (trace r) = n :: later) /\
      (exists unreached,
         map nodeId (filter isForward refs) = (calls_at (d + 1) (trace r) ++ unreached)%list /\
         (outcome r = Some tt -> unreached = []))
  | _ => browsed (trace r) = [] /\ calls (trace r) = [(n, d)]
  end /\
  exists deeper,
    calls (trace r) = (n, d) :: deeper /\ Forall (fun c => d + 1 <= snd c) deeper.
Proof.
  cbv zeta; split; [|apply call_own_depth].
  pose proof (call_trace fuel n d v s) as T; cbv zeta in T.
  destruct (read_attributes_quiet n s) as (_ & Qc & Qb & Qa).
  assert (Skip : forall t, t = Enter n d :: trace (attributes n s) ->
                 browsed t = [] /\ calls t = [(n, d)]).
  { intros t ->; cbn [browsed calls]; rewrite Qb, Qc; split; reflexivity. }
  destruct (outcome (attributes n s)) as [[[cls bn]|]|];
    try (destruct T as (T & _); apply Skip; exact T).
  destruct (print_node_returns n d cls bn (final (attributes n s))) as (_ & Pc & Pb & Pa).
  assert (Leaf : forall t,
            t = (Enter n d :: trace (attributes n s)
                   ++ trace (node_print n d cls bn (final (attributes n s))))%list ->
            browsed t = [] /\ calls t = [(n, d)]).
  { intros t ->; cbn [browsed calls]; rewrite browsed_app, calls_app, Qb, Qc, Pb, Pc.
    split; reflexivity. }
  assert (Hne : (d =? d + 1) = false) by (apply Z.eqb_neq; lia).
  assert (Node : browses_children cls = true ->
            (exists later, browsed (trace (call (Datatypes.S fuel) n d v s)) = n :: later) /\
            (exists unreached,
               map nodeId (filter isForward
                 (references_to_browse
                    (fst (UA_Client_Service_browse client n (final (attributes n s))))))
               = (calls_at (d + 1) (trace (call (Datatypes.S fuel) n d v s)) ++ unreached)%list /\
               (outcome (call (Datatypes.S fuel) n d v s) = Some tt -> unreached = []))).
  { intros Hb; rewrite Hb in T.
    destruct (references_to_browse _) as [|ref refs].
    - destruct T as (T & To & _); rewrite T; split.
      + exists []; cbn [browsed]; rewrite !browsed_app, Qb, Pb; reflexivity.
      + exists []; cbn [calls_at]; rewrite Hne, !calls_at_app, Qa, Pa; split; reflexivity.
    - destruct T as (T & To & _); rewrite T, To; split.
      + eexists; cbn [browsed]; rewrite browsed_app, Qb, browsed_app, Pb; reflexivity.
      + destruct (siblings_calls_at fuel (ref :: refs) (d + 1) v
                    (snd (UA_Client_Service_browse client n (final (attributes n s)))))
          as (u & Hu & Hd).
        exists u; split; [|exact Hd].
        cbn [calls_at]; rewrite Hne, calls_at_app, Qa, calls_at_app, Pa.
        cbn [calls_at app]; rewrite calls_at_app.
        destruct (v && (d =? 0)); exact Hu. }
  destruct cls; try (apply Node; reflexivity); destruct T as (T & _); apply Leaf; exact T.
Qed.

(** *** Depth and termination *)

Section ForwardHeight.

(** [height] bounds the length of the chains of forward references below
    each node: every forward reference a browse can return leads to a node
    of smaller height. *)
Variable height : UA_NodeId -> nat.
Hypothesis forward_descends :
  forall (n : UA_NodeId) (s : S) (ref : UA_ReferenceDescription),
    In ref (references_to_browse (fst (UA_Client_Service_browse client n s))) ->
    isForward ref = true ->
    (height (nodeId ref) < height n)%nat.

Lemma siblings_bounded (fuel : nat) (h : nat)
    (IH : forall n d v s, (height n < fuel)%nat ->
            outcome (call fuel n d v s) = Some tt /\
            Forall (fun c => d <= snd c <= d + Z.of_nat (height n))
                   (calls (trace (call fuel n d v s))))
    (refs : list UA_ReferenceDescription) (d : Z) (v : bool) (s : S) :
  (h <= fuel)%nat ->
  (forall ref, In ref refs -> isForward ref = true -> (height (nodeId ref) < h)%nat) ->
  outcome (siblings fuel refs d v s) = Some tt /\
  Forall (fun c => d <= snd c <= d + Z.of_nat h - 1) (calls (trace (siblings fuel refs d v s))).
Proof.
  intros Hh; revert s; induction refs as [|ref refs IHrefs]; intros s Hrefs.
  - split; [reflexivity | constructor].
  - rewrite siblings_cons.
    assert (Hrest : forall x, In x refs -> isForward x = true -> (height (nodeId x) < h)%nat)
      by (intros x Hx; apply Hrefs; right; exact Hx).
    destruct (isForward ref) eqn:Hf; [|apply IHrefs; exact Hrest].
    assert (Hlt : (height (nodeId ref) < h)%nat) by (apply Hrefs; [left; reflexivity | exact Hf]).
    destruct (IH (nodeId ref) d v s ltac:(lia)) as (Ho & Hc).
    rewrite (bind_done _ _ _ _ Ho); cbn [trace outcome].
    destruct (IHrefs (final (call fuel (nodeId ref) d v s)) Hrest) as (Ho' & Hc').
    split; [exact Ho'|].
    rewrite calls_app; apply Forall_app; split; [|exact Hc'].
    eapply Forall_impl; [|exact Hc]. simpl; intros; lia.
Qed.

(** A call for a node of height below the stack budget returns, and the
    calls of its run stay within [height] levels below it. *)
Lemma run_bounded (fuel : nat) (n : UA_NodeId) (d : Z) (v : bool) (s : S) :
  (height n < fuel)%nat ->
  outcome (call fuel n d v s) = Some tt /\
  Forall (fun c => d <= snd c <= d + Z.of_nat (height n)) (calls (trace (call fuel n d v s))).
Proof.
  revert n d v s; induction fuel as [|fuel IH]; intros n d v s Hfuel; [lia|].
  pose proof (call_trace fuel n d v s) as T; cbv zeta in T.
  destruct (read_attributes_quiet n s) as (_ & Qc & _ & _).
  assert (Own : Forall (fun c => d <= snd c <= d + Z.of_nat (height n)) [(n, d)])
    by (constructor; [simpl; lia | constructor]).
  destruct (outcome (attributes n s)) as [[[cls bn]|]|];
    try (destruct T as (T & To & _); rewrite T, To; cbn [calls]; rewrite Qc;
         split; [reflexivity | exact Own]).
  destruct (print_node_returns n d cls bn (final (attributes n s))) as (_ & Pc & _ & _).
  destruct (browses_children cls).
  - pose proof (forward_descends n (final (attributes n s))) as Hdesc.
    destruct (references_to_browse _) as [|ref refs].
    + destruct T as (T & To & _); rewrite T, To; cbn [calls].
      rewrite !calls_app, Qc, Pc; split; [reflexivity | exact Own].
    + destruct T as (T & To & _); rewrite T, To.
      destruct (siblings_bounded fuel (height n) IH (ref :: refs) (d + 1) v
                  (snd (UA_Client_Service_browse client n (final (attributes n s))))
                  ltac:(lia) Hdesc) as (Ho & Hc).
      split; [exact Ho|].
      cbn [calls]; rewrite calls_app, Qc, calls_app, Pc; cbn [calls app]; rewrite calls_app.
      constructor; [simpl; lia|].
      apply Forall_app; split; [destruct (v && (d =? 0)); constructor|].
      eapply Forall_impl; [|exact Hc]. simpl; intros; lia.
  - destruct T as (T & To & _); rewrite T, To; cbn [calls]; rewrite calls_app, Qc, Pc.
    split; [reflexivity | exact Own].
Qed.

(** C1, as the code has it.  The function takes no depth bound.  What
    bounds a run is the server: when every forward reference leads to a
    node of smaller height, a call for a node of height [h] returns on any
    stack that allows more than [h] nested calls, and every call of the
    run is at a depth between [d] and [d + h]. *)
Theorem depth_bounded_by_forward_height (fuel : nat) (n : UA_NodeId) (d : Z) (v : bool)
    (s : S) (Hfuel : (height n < fuel)%nat) :
  let r := call fuel n d v s in
  outcome r = Some tt /\
  Forall (fun c => d <= snd c <= d + Z.of_nat (height n)) (calls (trace r)).
Proof. cbv zeta; apply run_bounded; exact Hfuel. Qed.

End ForwardHeight.

(** *** The verbose flag *)

(** Below the first level the flag changes nothing at all. *)
Lemma siblings_verbose_from (fuel : nat)
    (IH : forall n d s, 0 < d -> call fuel n d true s = call fuel n d false s)
    (refs : list UA_ReferenceDescription) (d : Z) (s : S) :
  0 < d -> siblings fuel refs d true s = siblings fuel refs d false s.
Proof.
  intros Hd; revert s; induction refs as [|ref refs IHrefs]; intros s; [reflexivity|].
  rewrite !siblings_cons; destruct (isForward ref); [|apply IHrefs].
  unfold bind; rewrite (IH _ _ _ Hd).
  destruct (outcome (call fuel (nodeId ref) d false s)); [|reflexivity].
  rewrite IHrefs; reflexivity.
Qed.

Lemma call_verbose_deep (fuel : nat) (n : UA_NodeId) (d : Z) (s : S) :
  0 < d -> call fuel n d true s = call fuel n d false s.
Proof.
  revert n d s; induction fuel as [|fuel IH]; intros n d s Hd; [reflexivity|].
  rewrite !call_run; cbv zeta.
  destruct (outcome (attributes n s)) as [[[cls bn]|]|]; try reflexivity.
  destruct (browses_children cls); [|reflexivity].
  rewrite !browse_children_run; cbv zeta.
  destruct (references_to_browse _) as [|ref refs]; [reflexivity|].
  assert (E : (d =? 0) = false) by (apply Z.eqb_neq; lia).
  rewrite E, andb_false_r, (siblings_verbose_from fuel IH) by lia.
  reflexivity.
Qed.

Lemma siblings_verbose_deep (fuel : nat) (refs : list UA_ReferenceDescription) (d : Z) (s : S) :
  0 < d -> siblings fuel refs d true s = siblings fuel refs d false s.
Proof. apply siblings_verbose_from; intros; apply call_verbose_deep; assumption. Qed.

(** A line printed in between is neither a round trip nor a call. *)
Lemma printf_between (before found after : list Event) :
  (found = [] \/ exists text, found = [Printf text]) ->
  round_trips (before ++ found ++ after) = round_trips (before ++ after) /\
  calls (before ++ found ++ after) = calls (before ++ after).
Proof.
  intros [-> | (text & ->)]; [split; reflexivity|].
  rewrite !round_trips_app, !calls_app; split; reflexivity.
Qed.

Lemma verbose_first_level (fuel : nat) (n : UA_NodeId) (d : Z) (s : S) :
  0 <= d ->
  outcome (call fuel n d true s) = outcome (call fuel n d false s) /\
  final (call fuel n d true s) = final (call fuel n d false s) /\
  exists before found after,
    trace (call fuel n d false s) = (before ++ after)%list /\
    trace (call fuel n d true s) = (before ++ found ++ after)%list /\
    (found = [] \/ d = 0 /\ exists k, found = [Printf (found_text k)]).
Proof.
  intros Hd.
  assert (Alike : forall t o f,
            trace (call fuel n d true s) = t /\ outcome (call fuel n d true s) = o /\
            final (call fuel n d true s) = f ->
            trace (call fuel n d false s) = t /\ outcome (call fuel n d false s) = o /\
            final (call fuel n d false s) = f ->
            outcome (call fuel n d true s) = outcome (call fuel n d false s) /\
            final (call fuel n d true s) = final (call fuel n d false s) /\
            exists before found after,
              trace (call fuel n d false s) = (before ++ after)%list /\
              trace (call fuel n d true s) = (before ++ found ++ after)%list /\
              (found = [] \/ d = 0 /\ exists k, found = [Printf (found_text k)])).
  { intros t o f (Tl & Ol & Fl) (Tq & Oq & Fq).
    rewrite Tl, Tq, Ol, Oq, Fl, Fq; repeat split.
    exists t, [], []; rewrite !app_nil_r; repeat split; left; reflexivity. }
  destruct (Z.eq_dec d 0) as [E0 | N0].
  2:{ eapply Alike; [|repeat split; reflexivity].
      rewrite call_verbose_deep by lia; repeat split; reflexivity. }
  subst d; destruct fuel as [|fuel]; [eapply Alike; repeat split; reflexivity|].
  pose proof (call_trace fuel n 0 true s) as Tl.
  pose proof (call_trace fuel n 0 false s) as Tq.
  cbv zeta in Tl, Tq.
  destruct (outcome (attributes n s)) as [[[cls bn]|]|];
    try (eapply Alike; [exact Tl | exact Tq]).
  destruct (browses_children cls); [|eapply Alike; [exact Tl | exact Tq]].
  destruct (references_to_browse _) as [|ref refs]; [eapply Alike; [exact Tl | exact Tq]|].
  destruct Tl as (Tl & Ol & Fl), Tq as (Tq & Oq & Fq).
  rewrite (siblings_verbose_deep fuel (ref :: refs) (0 + 1)) in Tl, Ol, Fl by lia.
  cbn [andb Z.eqb] in Tl, Tq.
  rewrite Tl, Tq, Ol, Oq, Fl, Fq.
  split; [reflexivity|]. split; [reflexivity|].
  exists (Enter n 0 :: trace (attributes n s)
            ++ trace (node_print n 0 cls bn (final (attributes n s))) ++ [Browse n])%list,
         [Printf (found_text (List.length (ref :: refs)))],
         (trace (siblings fuel (ref :: refs) (0 + 1) false
                   (snd (UA_Client_Service_browse client n (final (attributes n s)))))).
  split; [cbn [app]; rewrite <- !app_assoc; reflexivity|].
  split; [cbn [app]; rewrite <- !app_assoc; reflexivity|].
  right; split; [reflexivity | eexists; reflexivity].
Qed.

(** C9.  Two runs from the same session state that differ only in the
    verbose flag return alike, leave the session in the same state, make
    the same round trips and the same calls in the same order, and print
    the same texts in the same order, except that the verbose run may
    print, at depth 0 only, the one line that counts the references. *)
Theorem verbose_only_adds_the_reference_count (fuel : nat) (n : UA_NodeId) (d : Z) (s : S)
    (Hd : 0 <= d) :
  let quiet := call fuel n d false s in
  let loud := call fuel n d true s in
  outcome loud = outcome quiet /\ final loud = final quiet /\
  round_trips (trace loud) = round_trips (trace quiet) /\
  calls (trace loud) = calls (trace quiet) /\
  exists before found after,
    trace quiet = (before ++ after)%list /\
    trace loud = (before ++ found ++ after)%list /\
    (found = [] \/ d = 0 /\ exists k, found = [Printf (found_text k)]).
Proof.
  cbv zeta.
  destruct (verbose_first_level fuel n d s Hd) as (Ho & Hf & before & found & after & Tq & Tl & Hfound).
  split; [exact Ho|]. split; [exact Hf|].
  assert (P : found = [] \/ exists text, found = [Printf text]).
  { destruct Hfound as [-> | (_ & k & ->)]; [left; reflexivity | right; eexists; reflexivity]. }
  destruct (printf_between before found after P) as (Pr & Pc).
  rewrite Tq, Tl, Pr, Pc.
  split; [reflexivity|]. split; [reflexivity|].
  exists before, found, after; repeat split; exact Hfound.
Qed.

(** *** The output, in pre-order *)

Local Abbreviation walk := (visit client fmt_2f UA_DateTime_toStruct).

Lemma join_app (a b : list string) : join (a ++ b) = join a ++ join b.
Proof. induction a as [|x a IH]; simpl; [reflexivity | now rewrite IH, append_assoc]. Qed.

Lemma listing_app (a b : list Visit) : listing (a ++ b) = (listing a ++ listing b)%list.
Proof. apply flat_map_app. Qed.

Lemma join_listing_single (n : UA_NodeId) (d : Z) (line : string) (children : list Visit) :
  join (listing [Visited n d line children]) = line ++ join (listing children).
Proof. unfold listing; cbn [flat_map preorder]; rewrite app_nil_r; reflexivity. Qed.

Lemma visit_run (fuel : nat) (n : UA_NodeId) (d : Z) (s : S) :
  walk (Datatypes.S fuel) n d s =
  let ra := attributes n s in
  match outcome ra with
  | Some (Some (cls, bn)) =>
      let rp := node_print n d cls bn (final ra) in
      if browses_children cls then
        let b := UA_Client_Service_browse client n (final rp) in
        match visit_each (fun child => walk fuel child (d + 1))
                (map nodeId (filter isForward (references_to_browse (fst b)))) (snd b) with
        | Some (children, s') => Some ([Visited n d (stdout (trace rp)) children], s')
        | None => None
        end
      else Some ([Visited n d (stdout (trace rp)) []], final rp)
  | _ => Some ([], final ra)
  end.
Proof. reflexivity. Qed.

(** The loop prints the listings of the walks of its forward targets. *)
Lemma siblings_listing_from (fuel : nat) (d : Z)
    (IH : forall n s, outcome (call fuel n d false s) = Some tt ->
            exists forest,
              walk fuel n d s = Some (forest, final (call fuel n d false s)) /\
              stdout (trace (call fuel n d false s)) = join (listing forest))
    (refs : list UA_ReferenceDescription) (s : S) :
  outcome (siblings fuel refs d false s) = Some tt ->
  exists forest,
    visit_each (fun child => walk fuel child d) (map nodeId (filter isForward refs)) s
      = Some (forest, final (siblings fuel refs d false s)) /\
    stdout (trace (siblings fuel refs d false s)) = join (listing forest).
Proof.
  revert s; induction refs as [|ref refs IHrefs]; intros s.
  - intros _; exists []; split; reflexivity.
  - rewrite siblings_cons; cbn [filter].
    destruct (isForward ref); [|apply IHrefs].
    cbn [map visit_each]; unfold bind.
    destruct (outcome (call fuel (nodeId ref) d false s)) as [[]|] eqn:E;
      cbn [trace final outcome]; [|discriminate].
    intros Hrest.
    destruct (IH (nodeId ref) s E) as (tree & Hw & Hs).
    destruct (IHrefs _ Hrest) as (trees & Hws & Hss).
    exists (tree ++ trees)%list; rewrite Hw, Hws; split; [reflexivity|].
    rewrite stdout_app, Hs, Hss, listing_app, join_app; reflexivity.
Qed.

(** Without the verbose flag the output of a call that returns is the
    pre-order listing of the tree it walked. *)
Lemma quiet_output_is_listing (fuel : nat) (n : UA_NodeId) (d : Z) (s : S) :
  outcome (call fuel n d false s) = Some tt ->
  exists forest,
    walk fuel n d s = Some (forest, final (call fuel n d false s)) /\
    stdout (trace (call fuel n d false s)) = join (listing forest).
Proof.
  revert n d s; induction fuel as [|fuel IH]; intros n d s; [discriminate|].
  pose proof (call_trace fuel n d false s) as T; cbv zeta in T.
  rewrite visit_run; cbv zeta.
  destruct (read_attributes_quiet n s) as (Qs & _).
  destruct (outcome (attributes n s)) as [[[cls bn]|]|];
    try (destruct T as (T & _ & Tf); intros _; exists []; rewrite T, Tf;
         cbn [trace stdout]; rewrite Qs; split; reflexivity).
  destruct (browses_children cls) eqn:Hb.
  - assert (Hv : cls <> UA_NODECLASS_VARIABLE) by (intros E; subst cls; discriminate).
    rewrite (print_node_plain n d cls bn _ Hv) in *; cbn [trace final] in *.
    destruct (references_to_browse _) as [|ref refs].
    + destruct T as (T & _ & Tf); intros _; rewrite T, Tf; cbn [filter map visit_each].
      eexists; split; [reflexivity|].
      rewrite join_listing_single.
      cbn [stdout]; rewrite !stdout_app, Qs.
      cbn [stdout listing flat_map join append]; rewrite !append_nil_r.
      reflexivity.
    + destruct T as (T & To & Tf); rewrite To; intros Hl.
      destruct (siblings_listing_from fuel (d + 1) (fun n s => IH n (d + 1) s) _ _ Hl)
        as (children & Hw & Hs).
      rewrite Hw, T, Tf; eexists; split; [reflexivity|].
      rewrite join_listing_single.
      cbn [stdout andb]; rewrite !stdout_app, Qs; cbn [stdout app append].
      rewrite Hs; reflexivity.
  - destruct T as (T & _ & Tf); intros _; rewrite T, Tf.
    eexists; split; [reflexivity|].
    rewrite join_listing_single.
    cbn [stdout]; rewrite stdout_app, Qs.
    cbn [listing flat_map join append]; rewrite !append_nil_r; reflexivity.
Qed.



End BrowserFacts.

(** ** The properties on the example sessions *)

Module OnExamples.

Import Examples Render.

(** Every forward reference of the plant leads from the folder to a node of
    height 0. *)
Lemma plant_forward_descends (n : UA_NodeId) (s : unit) (ref : UA_ReferenceDescription) :
  In ref (references_to_browse (fst (UA_Client_Service_browse plant n s))) ->
  isForward ref = true ->
  (plant_height (nodeId ref) < plant_height n)%nat.
Proof.
  unfold plant_height; cbn [UA_Client_Service_browse plant fst].
  destruct (numeric_of n =? 85) eqn:E85.
  - cbn [references_to_browse results references].
    intros H _; repeat (destruct H as [<- | H]; [vm_compute; lia|]); contradiction.
  - destruct (numeric_of n =? 3); [|destruct (numeric_of n =? 1)];
      cbn [references_to_browse results references].
    + intros [<- | []]; discriminate.
    + intros [].
    + intros [].
Qed.

(** On the looping server a run with room for [fuel] nested calls enters
    every depth below [fuel]. *)
Lemma looping_reaches_every_depth (fuel k : nat) (d : Z) :
  (k < fuel)%nat ->
  In (node 85, d + Z.of_nat k) (calls (trace (browse_looping fuel (node 85) d false tt))).
Proof.
  revert k d; induction fuel as [|fuel IH]; intros k d Hk; [lia|].
  unfold browse_looping in *.
  pose proof (call_trace looping two_decimals calendar fuel (node 85) d false tt) as T.
  cbv zeta in T.
  change (outcome (read_attributes looping (node 85) tt))
    with (Some (Some (UA_NODECLASS_OBJECT, mkQualifiedName 0 "Objects"))) in T.
  cbn [browses_children] in T.
  change (references_to_browse _) with [forward 85] in T.
  destruct T as (T & _ & _); rewrite T.
  destruct k as [|k]; [left; f_equal; simpl; lia|].
  right; cbn [andb app]; rewrite !calls_app; apply in_or_app; right.
  apply in_or_app; right; cbn [calls].
  rewrite siblings_cons; cbn [forward isForward nodeId]; unfold bind.
  specialize (IH k (d + 1) ltac:(lia)).
  replace (d + Z.of_nat (S k)) with (d + 1 + Z.of_nat k) by lia.
  destruct (outcome _); cbn [trace]; [rewrite calls_app; apply in_or_app; left|]; exact IH.
Qed.

(** C1, the claim as stated fails.  On a server whose Objects folder refers
    forward to itself nothing stops the descent: with room for five nested
    calls the run reaches depth 4, beyond a bound of 3; whatever the bound,
    a call is made one level beyond it; and no stack budget lets the run
    return. *)
Lemma looping_run_passes_any_depth :
  In (node 85, 4) (calls (trace (browse_looping 5 (node 85) 0 false tt))) /\
  (forall maxDepth : nat,
     In (node 85, Z.of_nat maxDepth + 1)
        (calls (trace (browse_looping (maxDepth + 2) (node 85) 0 false tt)))) /\
  ~ (exists fuel, outcome (browse_looping fuel (node 85) 0 false tt) = Some tt).
Proof.
  split; [vm_compute; tauto|]. split.
  { intros m.
    replace (Z.of_nat m + 1) with (0 + Z.of_nat (S m)) by lia.
    apply looping_reaches_every_depth; lia. }
  intros (fuel & H); revert H.
  generalize 0; induction fuel as [|fuel IH]; intros d; [discriminate|].
  unfold browse_looping in *.
  pose proof (call_trace looping two_decimals calendar fuel (node 85) d false tt) as T.
  cbv zeta in T.
  change (outcome (read_attributes looping (node 85) tt))
    with (Some (Some (UA_NODECLASS_OBJECT, mkQualifiedName 0 "Objects"))) in T.
  cbn [browses_children] in T.
  change (references_to_browse _) with [forward 85] in T.
  destruct T as (_ & To & _); rewrite To.
  rewrite siblings_cons; cbn [forward isForward nodeId]; unfold bind.
  destruct (outcome (browseAndReadNode looping two_decimals calendar fuel (node 85) (d + 1) false _))
    as [[]|] eqn:E; [|discriminate].
  intros _; exact (IH (d + 1) E).
Qed.

(** On the plant, whose folder has height 1, a run with room for two nested
    calls returns and stays within depths 0 and 1. *)
Lemma depth_bounded_by_forward_height_witness :
  outcome (browse_plant 2 (node 85) 0 true tt) = Some tt /\
  Forall (fun c => 0 <= snd c <= 0 + Z.of_nat (plant_height (node 85)))
         (calls (trace (browse_plant 2 (node 85) 0 true tt))).
Proof.
  exact (depth_bounded_by_forward_height plant two_decimals calendar plant_height
           plant_forward_descends 2 (node 85) 0 true tt ltac:(vm_compute; lia)).
Defined.

(** The calls one level below the folder of the plant are its six forward
    references, in the order of the response; Tank's reference back to the
    folder causes no call. *)
Lemma children_are_the_forward_references_witness :
  calls_at 1 (trace (browse_plant 2 (node 85) 0 false tt))
  = [node 1; node 2; node 4; node 5; node 6; node 3] /\
  calls_at 2 (trace (browse_plant 3 (node 85) 0 false tt)) = [].
Proof.
  destruct (children_are_the_forward_references plant two_decimals calendar 1 (node 85) 0 false tt)
    as ((_ & unreached & Heq & Hdone) & _).
  rewrite (Hdone eq_refl), app_nil_r in Heq.
  split; [symmetry; exact Heq | reflexivity].
Defined.

(** Node 4 of the plant cannot be read: it prints nothing, and Level and
    Speed around it print their lines. *)
Lemma failed_attribute_read_skips_node_witness :
  stdout (trace (browse_plant 1 (node 4) 1 false tt)) = "" /\
  calls (trace (browse_plant 1 (node 4) 1 false tt)) = [(node 4, 1)] /\
  stdout (trace (browse_siblings plant two_decimals calendar 1
                   [forward 2; forward 4; forward 5] 1 false tt))
  = "  Level  [ns=0;i=2] (Variable) = 3.14" ++ LF
    ++ "  Speed  [ns=0;i=5] (Variable) [Read error: 0x80010000]" ++ LF.
Proof.
  destruct (failed_attribute_read_skips_node plant two_decimals calendar 0 (node 4) 1 false tt
              ltac:(left; reflexivity)) as ((_ & Hs & Hc & _) & Hsiblings).
  split; [exact Hs|]. split; [exact Hc|].
  destruct (Hsiblings [forward 2] [forward 5] tt eq_refl eq_refl) as (_ & Hout & _).
  exact Hout.
Defined.

(** The browse of Pump fails: Pump prints its line as a leaf, and Level
    after it prints its own. *)
Lemma childless_browse_renders_leaf_witness :
  stdout (trace (browse_plant 1 (node 1) 1 true tt)) = "  Pump  [ns=0;i=1] (Object)" ++ LF /\
  browsed (trace (browse_plant 1 (node 1) 1 true tt)) = [node 1] /\
  stdout (trace (browse_siblings plant two_decimals calendar 1 [forward 1; forward 2] 1 true tt))
  = "  Pump  [ns=0;i=1] (Object)" ++ LF ++ "  Level  [ns=0;i=2] (Variable) = 3.14" ++ LF.
Proof.
  destruct (childless_browse_renders_leaf plant two_decimals calendar 0 (node 1) 1 true tt
              UA_NODECLASS_OBJECT (mkQualifiedName 0 "Pump")
              eq_refl (or_introl eq_refl) (or_introl eq_refl))
    as ((_ & Hs & _ & Hb) & Hsiblings).
  split; [exact Hs|]. split; [exact Hb|].
  destruct (Hsiblings [] [forward 2] tt eq_refl eq_refl) as (Hout & _).
  exact Hout.
Defined.

(** C4, the claim as stated fails.  The value read of Mode succeeds, with
    the Good status, and returns an empty variant: the line carries the
    read-error text, with status 0x00000000, and no decoded value. *)
Lemma empty_value_prints_read_error :
  fst (fst (UA_Client_readValueAttribute plant (node 6) tt)) = UA_STATUSCODE_GOOD /\
  stdout (trace (browse_plant 1 (node 6) 0 false tt))
  = "Mode  [ns=0;i=6] (Variable) [Read error: 0x00000000]" ++ LF.
Proof. split; reflexivity. Qed.

(** Speed, whose value read fails with 0x80010000, and Level, whose value
    is the single 3.14159. *)
Lemma variable_line_value_or_read_error_witness :
  stdout (trace (browse_plant 1 (node 5) 1 false tt))
  = "  Speed  [ns=0;i=5] (Variable) [Read error: 0x80010000]" ++ LF /\
  stdout (trace (browse_plant 1 (node 2) 1 false tt))
  = "  Level  [ns=0;i=2] (Variable) = 3.14" ++ LF.
Proof.
  destruct (variable_line_value_or_read_error plant two_decimals calendar 0 (node 5) 1 false tt
              (mkQualifiedName 0 "Speed") eq_refl) as (_ & _ & _ & _ & H5 & _ & _).
  destruct (variable_line_value_or_read_error plant two_decimals calendar 0 (node 2) 1 false tt
              (mkQualifiedName 0 "Level") eq_refl) as (_ & _ & _ & _ & H2 & _ & _).
  split; [exact H5 | exact H2].
Defined.



(** The quiet and the verbose run over the plant make the same round trips
    and the same calls. *)
Lemma verbose_only_adds_the_reference_count_witness :
  outcome (browse_plant 2 (node 85) 0 true tt) = outcome (browse_plant 2 (node 85) 0 false tt) /\
  round_trips (trace (browse_plant 2 (node 85) 0 true tt))
  = round_trips (trace (browse_plant 2 (node 85) 0 false tt)) /\
  calls (trace (browse_plant 2 (node 85) 0 true tt))
  = calls (trace (browse_plant 2 (node 85) 0 false tt)).
Proof.
  destruct (verbose_only_adds_the_reference_count plant two_decimals calendar 2 (node 85) 0 tt
              ltac:(lia)) as (Ho & _ & Hr & Hc & _).
  split; [exact Ho|]. split; [exact Hr | exact Hc].
Defined.

End OnExamples.

(** * More on the browser *)

Section RunFacts2.

Context {S : Type}.
Variable client : UA_Client S.
Variable fmt_2f : UA_Float -> string.
Variable UA_DateTime_toStruct : UA_DateTime -> UA_DateTimeStruct.

Import Render.

Local Abbreviation call := (browseAndReadNode client fmt_2f UA_DateTime_toStruct).
Local Abbreviation siblings := (browse_siblings client fmt_2f UA_DateTime_toStruct).
Local Abbreviation attributes := (read_attributes client).
Local Abbreviation node_print := (print_node client fmt_2f UA_DateTime_toStruct).

(** *** Cycles of forward references *)

(** In the loop over the references, a forward reference into the set is
    never got past. *)
Lemma siblings_stuck (inside : UA_NodeId -> Prop) (fuel : nat)
    (IH : forall n d v s, inside n -> outcome (call fuel n d v s) = None)
    (refs : list UA_ReferenceDescription) (d : Z) (v : bool) (s : S) :
  (exists ref, In ref refs /\ isForward ref = true /\ inside (nodeId ref)) ->
  outcome (siblings fuel refs d v s) = None.
Proof.
  intros (ref & Hin & Hf & Hins); revert s.
  induction refs as [|ref' refs IHrefs]; intros s; [contradiction|].
  rewrite siblings_cons.
  destruct Hin as [-> | Hin].
  - rewrite Hf; unfold bind; rewrite (IH _ d v s Hins); reflexivity.
  - destruct (isForward ref'); [|apply IHrefs; exact Hin].
    unfold bind; destruct (outcome (call fuel (nodeId ref') d v s)); cbn [outcome];
      [apply IHrefs; exact Hin | reflexivity].
Qed.

(** A call for a node of the set returns on no stack. *)
Lemma forward_cycle_never_returns (inside : UA_NodeId -> Prop)
    (Hcycle : forward_cycle client inside) (fuel : nat) :
  forall n d v s, inside n -> outcome (call fuel n d v s) = None.
Proof.
  induction fuel as [|fuel IH]; intros n d v s Hn; [reflexivity|].
  pose proof (call_trace client fmt_2f UA_DateTime_toStruct fuel n d v s) as T.
  cbv zeta in T.
  destruct (Hcycle n s Hn) as ((cls & bn & Ha & Hb) & _).
  destruct (Hcycle n (final (attributes n s)) Hn) as (_ & Href).
  rewrite Ha, Hb in T.
  pose proof (siblings_stuck inside fuel IH
                (references_to_browse
                   (fst (UA_Client_Service_browse client n (final (attributes n s)))))
                (d + 1) v
                (snd (UA_Client_Service_browse client n (final (attributes n s)))) Href)
    as Hstuck.
  destruct (references_to_browse _) as [|ref refs].
  - destruct Href as (ref & [] & _).
  - destruct T as (_ & To & _); rewrite To; exact Hstuck.
Qed.

(** A run that uses up a stack of [fuel + 1] calls made a call [fuel]
    levels below its first. *)
Lemma siblings_exhausted_are_deep (fuel : nat)
    (IH : forall n d v s,
       outcome (call (Datatypes.S fuel) n d v s) = None ->
       exists n', In (n', d + Z.of_nat fuel) (calls (trace (call (Datatypes.S fuel) n d v s))))
    (refs : list UA_ReferenceDescription) (d : Z) (v : bool) (s : S) :
  outcome (siblings (Datatypes.S fuel) refs d v s) = None ->
  exists n', In (n', d + Z.of_nat fuel) (calls (trace (siblings (Datatypes.S fuel) refs d v s))).
Proof.
  revert s; induction refs as [|ref refs IHrefs]; intros s; [discriminate|].
  rewrite siblings_cons; destruct (isForward ref); [|apply IHrefs].
  unfold bind.
  destruct (outcome (call (Datatypes.S fuel) (nodeId ref) d v s)) eqn:E; cbn [outcome trace].
  - intros H; destruct (IHrefs _ H) as (n' & Hn').
    exists n'; rewrite calls_app; apply in_or_app; right; exact Hn'.
  - intros _; exact (IH _ _ _ _ E).
Qed.

Lemma exhausted_run_is_deep (fuel : nat) (n : UA_NodeId) (d : Z) (v : bool) (s : S) :
  outcome (call (Datatypes.S fuel) n d v s) = None ->
  exists n', In (n', d + Z.of_nat fuel) (calls (trace (call (Datatypes.S fuel) n d v s))).
Proof.
  revert n d v s; induction fuel as [|fuel IH]; intros n d v s.
  - pose proof (call_trace client fmt_2f UA_DateTime_toStruct 0 n d v s) as T.
    cbv zeta in T.
    destruct (outcome (attributes n s)) as [[[cls bn]|]|];
      try (destruct T as (_ & To & _); rewrite To; discriminate).
    destruct (browses_children cls); [|destruct T as (_ & To & _); rewrite To; discriminate].
    destruct (references_to_browse _) as [|ref refs];
      [destruct T as (_ & To & _); rewrite To; discriminate|].
    destruct T as (T & _ & _); intros _; exists n; rewrite T.
    left; f_equal; cbn [Z.of_nat]; lia.
  - pose proof (call_trace client fmt_2f UA_DateTime_toStruct (Datatypes.S fuel) n d v s) as T.
    cbv zeta in T.
    destruct (outcome (attributes n s)) as [[[cls bn]|]|];
      try (destruct T as (_ & To & _); rewrite To; discriminate).
    destruct (browses_children cls); [|destruct T as (_ & To & _); rewrite To; discriminate].
    destruct (references_to_browse _) as [|ref refs];
      [destruct T as (_ & To & _); rewrite To; discriminate|].
    destruct T as (T & To & _); rewrite To; intros H.
    destruct (siblings_exhausted_are_deep fuel IH _ _ _ _ H) as (n' & Hn').
    exists n'; rewrite T.
    replace (d + Z.of_nat (Datatypes.S fuel)) with (d + 1 + Z.of_nat fuel) by lia.
    right; rewrite !calls_app; apply in_or_app; right; apply in_or_app; right.
    cbn [calls]; rewrite calls_app; apply in_or_app; right; exact Hn'.
Qed.

(** X1.  The function keeps no record of the nodes it has visited and has
    no cap on depth, so a cycle of forward references through Object or
    View nodes is followed without end.  Let a set of nodes be such that
    each of them reads as an Object or a View in every session state and
    every browse of one of them returns a forward reference to one of
    them.  Then a call for a node of the set returns on no stack, however
    deep, and for every [k] a stack of [k + 1] calls is enough for a call
    [k] levels below the first. *)
Theorem forward_cycle_is_followed_without_end (inside : UA_NodeId -> Prop)
    (Hcycle : forward_cycle client inside) (n : UA_NodeId) (Hn : inside n)
    (d : Z) (v : bool) (s : S) :
  (forall fuel, outcome (call fuel n d v s) = None) /\
  (forall k : nat,
     exists n', In (n', d + Z.of_nat k) (calls (trace (call (Datatypes.S k) n d v s)))).
Proof.
  split.
  - intros fuel; apply (forward_cycle_never_returns inside Hcycle); exact Hn.
  - intros k; apply exhausted_run_is_deep.
    apply (forward_cycle_never_returns inside Hcycle); exact Hn.
Qed.

(** *** The cost of a run in round trips *)

Lemma class_reads_app (t1 t2 : list Event) :
  class_reads (t1 ++ t2) = (class_reads t1 ++ class_reads t2)%list.
Proof. apply filter_app. Qed.

Lemma attributes_cost (n : UA_NodeId) (s : S) :
  List.length (class_reads (trace (attributes n s))) = 1%nat /\
  (List.length (round_trips (trace (attributes n s))) <= 2)%nat.
Proof.
  rewrite read_attributes_run; cbv zeta.
  destruct (is_good _); cbn; split; lia.
Qed.

Lemma print_node_cost (n : UA_NodeId) (d : Z) (cls : UA_NodeClass) (bn : UA_QualifiedName)
    (s : S) :
  class_reads (trace (node_print n d cls bn s)) = [] /\
  (List.length (round_trips (trace (node_print n d cls bn s)))
   <= if browses_children cls then 0 else 1)%nat.
Proof.
  destruct cls;
    try (rewrite print_node_plain by discriminate; cbn; split; [reflexivity | lia]).
  unfold print_node, print_class; rewrite !printf_then; cbn [trace].
  unfold class_reads, round_trips; cbn [filter is_class_read is_round_trip browses_children].
  unfold print_variable, bind, round_trip, printf, emit, ret; simpl.
  destruct (UA_Client_readValueAttribute client n s) as [[st value] s1]; simpl.
  destruct (is_good st), value; simpl; split; (reflexivity || lia).
Qed.

Lemma siblings_cost_from (fuel : nat)
    (IH : forall n d v s,
       List.length (class_reads (trace (call fuel n d v s)))
         = List.length (calls (trace (call fuel n d v s))) /\
       (List.length (round_trips (trace (call fuel n d v s)))
         <= 3 * List.length (calls (trace (call fuel n d v s))))%nat)
    (refs : list UA_ReferenceDescription) (d : Z) (v : bool) (s : S) :
  List.length (class_reads (trace (siblings fuel refs d v s)))
    = List.length (calls (trace (siblings fuel refs d v s))) /\
  (List.length (round_trips (trace (siblings fuel refs d v s)))
    <= 3 * List.length (calls (trace (siblings fuel refs d v s))))%nat.
Proof.
  revert s; induction refs as [|ref refs IHrefs]; intros s.
  - cbn; split; lia.
  - rewrite siblings_cons; destruct (isForward ref); [|apply IHrefs].
    destruct (IH (nodeId ref) d v s) as (Hc & Hr).
    unfold bind; destruct (outcome (call fuel (nodeId ref) d v s)); cbn [trace];
      [|split; assumption].
    destruct (IHrefs (final (call fuel (nodeId ref) d v s))) as (Hc' & Hr').
    rewrite class_reads_app, round_trips_app, calls_app, !length_app; split; lia.
Qed.

(** X2.  Every call of the function makes exactly one node-class read, so
    a run makes as many of them as it makes calls; and no call makes more
    than three round trips (class, name, then the value or the browse), so
    a run never makes more than three round trips for each call. *)
Theorem round_trips_per_call (fuel : nat) (n : UA_NodeId) (d : Z) (v : bool) (s : S) :
  let t := trace (call fuel n d v s) in
  List.length (class_reads t) = List.length (calls t) /\
  (List.length (round_trips t) <= 3 * List.length (calls t))%nat.
Proof.
  cbv zeta; revert n d v s; induction fuel as [|fuel IH]; intros n d v s.
  - cbn; split; lia.
  - pose proof (call_trace client fmt_2f UA_DateTime_toStruct fuel n d v s) as T.
    cbv zeta in T.
    destruct (attributes_cost n s) as (Ac & Ar).
    destruct (read_attributes_quiet client n s) as (_ & Qc & _ & _).
    assert (Count : forall t,
              trace (call (Datatypes.S fuel) n d v s)
                = (Enter n d :: trace (attributes n s) ++ t)%list ->
              List.length (class_reads t) = List.length (calls t) ->
              (List.length (round_trips t) <= 1 + 3 * List.length (calls t))%nat ->
              List.length (class_reads (trace (call (Datatypes.S fuel) n d v s)))
                = List.length (calls (trace (call (Datatypes.S fuel) n d v s))) /\
              (List.length (round_trips (trace (call (Datatypes.S fuel) n d v s)))
                <= 3 * List.length (calls (trace (call (Datatypes.S fuel) n d v s))))%nat).
    { intros t -> Hc Hr.
      change (Enter n d :: ?x) with ([Enter n d] ++ x)%list.
      rewrite !class_reads_app, !round_trips_app, !calls_app, !length_app, Qc.
      change (List.length (class_reads [Enter n d])) with 0%nat.
      change (List.length (round_trips [Enter n d])) with 0%nat.
      change (List.length (calls [Enter n d])) with 1%nat.
      change (List.length (@nil (UA_NodeId * Z))) with 0%nat.
      split; lia. }
    destruct (outcome (attributes n s)) as [[[cls bn]|]|];
      try (destruct T as (T & _); apply (Count []);
           [rewrite app_nil_r; exact T | reflexivity | cbn; lia]).
    destruct (print_node_cost n d cls bn (final (attributes n s))) as (Pc & Pr).
    destruct (print_node_returns client fmt_2f UA_DateTime_toStruct n d cls bn
                (final (attributes n s))) as (_ & Pcalls & _ & _).
    destruct (browses_children cls); cbv beta iota in Pr.
    + destruct (references_to_browse _) as [|ref refs].
      * destruct T as (T & _); eapply Count; [exact T | |].
        -- rewrite class_reads_app, calls_app, Pc, Pcalls; reflexivity.
        -- rewrite round_trips_app, calls_app, length_app, Pcalls.
           change (List.length (round_trips [Browse n])) with 1%nat.
           cbn [List.length app]; lia.
      * destruct T as (T & _).
        destruct (siblings_cost_from fuel IH (ref :: refs) (d + 1) v
                    (snd (UA_Client_Service_browse client n (final (attributes n s)))))
          as (Sc & Sr).
        eapply Count; [exact T | |].
        -- change (Browse n :: ?x) with ([Browse n] ++ x)%list.
           rewrite !class_reads_app, !calls_app, Pc, Pcalls.
           destruct (v && (d =? 0)); cbn [class_reads filter is_class_read calls app];
             exact Sc.
        -- change (Browse n :: ?x) with ([Browse n] ++ x)%list.
           rewrite !round_trips_app, !calls_app, !length_app, Pcalls.
           change (List.length (round_trips [Browse n])) with 1%nat.
           destruct (v && (d =? 0));
             cbn [round_trips filter is_round_trip calls app List.length]; lia.
    + destruct T as (T & _); eapply Count; [exact T | |].
      * rewrite Pc, Pcalls; reflexivity.
      * rewrite Pcalls; cbn [List.length]; lia.
Qed.

End RunFacts2.

(** ** More on the node line *)

Module RenderFacts2.

Import Render.

Lemma indent_bounds_checked : forallb indent_bounds_check (seq 0 61) = true.
Proof. vm_compute; reflexivity. Qed.

(** X3.  Whatever the depth, negative or huge, the indentation loop writes
    inside its 64-byte buffer and leaves it NUL-terminated: the buffer
    keeps its 64 characters (a write past the end would lengthen it), the
    last three stay NUL, and the indentation printed is never longer than
    61 spaces.  A depth of zero or below gives no indentation, and a
    deeper node is never indented less. *)
Theorem indent_stays_in_its_buffer (depth : Z) :
  List.length (indent_buffer depth) = 64%nat /\
  (forall i, (61 <= i < 64)%nat -> nth i (indent_buffer depth) " "%char = NUL) /\
  (String.length (indent depth) <= 61)%nat /\
  (depth <= 0 -> indent depth = "") /\
  (forall deeper, depth <= deeper ->
     (String.length (indent depth) <= String.length (indent deeper))%nat).
Proof.
  assert (B : (indent_iterations depth < 61)%nat) by (unfold indent_iterations; lia).
  pose proof indent_bounds_checked as C.
  rewrite forallb_forall in C.
  specialize (C (indent_iterations depth) ltac:(apply in_seq; lia)).
  unfold indent_bounds_check in C.
  apply andb_prop in C; destruct C as (Clen & Cnul).
  apply Nat.eqb_eq in Clen.
  rewrite forallb_forall in Cnul.
  assert (L : forall z, String.length (indent z)
                        = match indent_iterations z with O => 0%nat | Datatypes.S k => Datatypes.S (Datatypes.S k) end).
  { intros z; rewrite RenderFacts.indent_spaces; apply spaces_length. }
  split; [exact Clen|].
  split.
  { intros i Hi; unfold indent_buffer.
    apply Ascii.eqb_eq, (Cnul i).
    assert (E : (i = 61 \/ i = 62 \/ i = 63)%nat) by lia.
    destruct E as [-> | [-> | ->]]; simpl; tauto. }
  split; [rewrite L; destruct (indent_iterations depth); lia|].
  split.
  { intros H; rewrite RenderFacts.indent_spaces.
    replace (indent_iterations depth) with 0%nat by (unfold indent_iterations; lia).
    reflexivity. }
  intros deeper H; rewrite !L.
  assert (M : (indent_iterations depth <= indent_iterations deeper)%nat)
    by (unfold indent_iterations; lia).
  destruct (indent_iterations depth), (indent_iterations deeper); lia.
Qed.

Lemma until_nul_nul_free (s : string) : nul_free (until_nul s) = true.
Proof.
  induction s as [|c s IH]; [reflexivity|].
  simpl; destruct (Ascii.eqb c NUL) eqn:E; [reflexivity|].
  simpl; rewrite E, IH; reflexivity.
Qed.

Lemma until_nul_prefix (s : string) : exists rest, s = until_nul s ++ rest.
Proof.
  induction s as [|c s (rest & IH)]; [exists ""; reflexivity|].
  simpl; destruct (Ascii.eqb c NUL); [exists (String c s); reflexivity|].
  exists rest; simpl; rewrite <- IH; reflexivity.
Qed.

Lemma until_nul_cut (a b : string) :
  nul_free a = true -> until_nul (a ++ String NUL b) = a.
Proof.
  induction a as [|c a IH]; intros H; [reflexivity|].
  simpl in *; apply andb_prop in H; destruct H as (Hc & Ha).
  destruct (Ascii.eqb c NUL); [discriminate|].
  rewrite IH by exact Ha; reflexivity.
Qed.

Lemma until_nul_whole (s : string) : nul_free s = true -> until_nul s = s.
Proof.
  induction s as [|c s IH]; intros H; [reflexivity|].
  simpl in *; apply andb_prop in H; destruct H as (Hc & Hs).
  destruct (Ascii.eqb c NUL); [discriminate|].
  rewrite IH by exact Hs; reflexivity.
Qed.

(** X4.  A browse name is printed up to, and not including, its first NUL
    byte: what is printed after the indentation is a beginning of the name
    and holds no NUL; a name without NUL is printed whole, and a name with
    one loses the NUL and everything after it. *)
Theorem name_is_printed_up_to_its_first_nul (depth : Z) (browseName : UA_QualifiedName) :
  exists printed,
    name_text depth browseName = indent depth ++ printed /\
    nul_free printed = true /\
    (exists rest, name browseName = printed ++ rest) /\
    (nul_free (name browseName) = true -> printed = name browseName) /\
    (forall a b, nul_free a = true -> name browseName = a ++ String NUL b -> printed = a).
Proof.
  exists (until_nul (name browseName)).
  split; [unfold name_text; rewrite fmt_prec_s_whole; reflexivity|].
  split; [apply until_nul_nul_free|].
  split; [apply until_nul_prefix|].
  split; [apply until_nul_whole|].
  intros a b Ha E; rewrite E; apply until_nul_cut; exact Ha.
Qed.

(** *** Numeric NodeIds are told apart *)

Lemma digit_char_is_digit (d : Z) : 0 <= d < 10 -> is_digit (digit_char d) = true.
Proof.
  intros H.
  assert (C : d = 0 \/ d = 1 \/ d = 2 \/ d = 3 \/ d = 4 \/ d = 5 \/ d = 6 \/ d = 7 \/
              d = 8 \/ d = 9) by lia.
  repeat (destruct C as [C | C]; [subst d; reflexivity|]); subst d; reflexivity.
Qed.

Lemma digits_are_digits (fuel : nat) (n : Z) (acc : string) :
  leading_digits acc = acc -> leading_digits (digits fuel 10 n acc) = digits fuel 10 n acc.
Proof.
  revert n acc; induction fuel as [|fuel IH]; intros n acc H; [exact H|].
  simpl digits.
  assert (Hm : 0 <= n mod 10 < 10) by (apply Z.mod_pos_bound; lia).
  assert (H' : leading_digits (String (digit_char (n mod 10)) acc)
               = String (digit_char (n mod 10)) acc).
  { cbn [leading_digits]; rewrite digit_char_is_digit by exact Hm; rewrite H; reflexivity. }
  destruct (n / 10 =? 0); [exact H' | apply IH; exact H'].
Qed.

Lemma fmt_u_digits (n : Z) : leading_digits (fmt_u n) = fmt_u n.
Proof. unfold fmt_u; apply digits_are_digits; reflexivity. Qed.

Lemma leading_digits_append (a b : string) :
  leading_digits a = a ->
  leading_digits (a ++ b) = a ++ leading_digits b /\ after_digits (a ++ b) = after_digits b.
Proof.
  induction a as [|c a IH]; intros H; [split; reflexivity|].
  cbn [leading_digits append after_digits] in *.
  destruct (is_digit c); [|discriminate].
  injection H as H; destruct (IH H) as (L & A).
  rewrite L, A; split; reflexivity.
Qed.

Lemma fmt_u_injective (a b : Z) :
  0 <= a < 2 ^ 32 -> 0 <= b < 2 ^ 32 -> fmt_u a = fmt_u b -> a = b.
Proof.
  intros Ha Hb E.
  rewrite <- (fmt_u_decimal a Ha), <- (fmt_u_decimal b Hb), E; reflexivity.
Qed.

(** The text of a Numeric NodeId, whatever its numbers. *)
Lemma nodeIdStr_numeric (ns numeric : Z) :
  nodeIdStr (UA_NODEID_NUMERIC ns numeric)
  = " [ns=" ++ fmt_u ns ++ ";i=" ++ fmt_u numeric ++ "]".
Proof.
  pose proof (fmt_u_length ns) as U.
  pose proof (fmt_u_length numeric) as V.
  pose proof (RenderFacts.nodeIdStr_prefix_length ns) as P.
  unfold nodeIdStr, UA_NODEID_NUMERIC; simpl identifier; simpl namespaceIndex; cbv zeta.
  rewrite RenderFacts.nodeIdStr_prefix_fits.
  assert (T : snprintf 64 ("i=" ++ fmt_u numeric ++ "]") = "i=" ++ fmt_u numeric ++ "]").
  { unfold snprintf; apply truncate_fits; rewrite !length_append; cbn [String.length]; lia. }
  rewrite T; unfold strncat.
  rewrite truncate_fits by (rewrite P, !length_append; cbn [String.length]; lia).
  rewrite !append_assoc; reflexivity.
Qed.

(** The text of any NodeId starts with the namespace, and what follows the
    semicolon starts with [i] for a Numeric identifier only. *)
Lemma nodeIdStr_split (n : UA_NodeId) :
  exists tail,
    nodeIdStr n = " [ns=" ++ fmt_u (namespaceIndex n) ++ ";" ++ tail /\
    match identifier n with
    | Id_Numeric i => tail = "i=" ++ fmt_u i ++ "]"
    | Id_String _ => exists tail', tail = String "s"%char tail'
    | _ => tail = ""
    end.
Proof.
  destruct n as [ns [i | str | g | b]].
  - exists ("i=" ++ fmt_u i ++ "]"); split; [|reflexivity].
    change (mkNodeId ns (Id_Numeric i)) with (UA_NODEID_NUMERIC ns i).
    rewrite nodeIdStr_numeric; reflexivity.
  - pose proof (fmt_u_length ns) as U.
    pose proof (RenderFacts.nodeIdStr_prefix_length ns) as P.
    unfold nodeIdStr; simpl identifier; simpl namespaceIndex; cbv zeta.
    rewrite RenderFacts.nodeIdStr_prefix_fits; unfold strncat, snprintf.
    rewrite P.
    destruct (256 - (String.length (fmt_u ns) + 6) - 1)%nat as [|k] eqn:K; [lia|].
    cbn [Nat.sub append truncate].
    eexists; split; [rewrite !append_assoc; reflexivity|].
    eexists; reflexivity.
  - exists ""; split; [|reflexivity].
    rewrite (proj1 (RenderFacts.nodeIdStr_other_kinds ns g "")), append_nil_r; reflexivity.
  - exists ""; split; [|reflexivity].
    rewrite (proj2 (RenderFacts.nodeIdStr_other_kinds ns [] b)), append_nil_r; reflexivity.
Qed.

(** The text of a Numeric NodeId determines it. *)
Lemma numeric_nodeId_text_determines_it (n n' : UA_NodeId) (numeric : Z)
    (Hnumeric : identifier n = Id_Numeric numeric)
    (Hn : fits_its_type n) (Hn' : fits_its_type n')
    (Hsame : nodeIdStr n = nodeIdStr n') :
  n = n'.
Proof.
  destruct (nodeIdStr_split n) as (tail & E & Htail).
  destruct (nodeIdStr_split n') as (tail' & E' & Htail').
  rewrite Hnumeric in Htail; subst tail.
  rewrite E, E' in Hsame.
  cbn [append] in Hsame; injection Hsame as Hsame.
  pose proof (leading_digits_append (fmt_u (namespaceIndex n))
                (";" ++ "i=" ++ fmt_u numeric ++ "]") (fmt_u_digits _)) as (L & A).
  pose proof (leading_digits_append (fmt_u (namespaceIndex n'))
                (";" ++ tail') (fmt_u_digits _)) as (L' & A').
  cbn [append] in L, A, L', A'.
  assert (Hns : fmt_u (namespaceIndex n) = fmt_u (namespaceIndex n')).
  { pose proof (f_equal leading_digits Hsame) as H.
    rewrite L, L' in H; cbn [append leading_digits is_digit] in H.
    change (is_digit ";"%char) with false in H; cbv iota in H.
    rewrite !append_nil_r in H; exact H. }
  pose proof (f_equal after_digits Hsame) as H.
  rewrite A, A' in H; cbn [append after_digits] in H.
  change (is_digit ";"%char) with false in H; cbv iota in H.
  injection H as H.
  destruct Hn as (Rn & Rnum), Hn' as (Rn' & Rid').
  rewrite Hnumeric in Rnum.
  assert (Ens : namespaceIndex n = namespaceIndex n')
    by (apply fmt_u_injective; [lia | lia | exact Hns]).
  destruct n as [ns ident], n' as [ns' ident']; cbn [namespaceIndex identifier] in *.
  subst ns' ident.
  destruct ident' as [i' | str | g | b].
  - subst tail'; cbn [append] in H; injection H as H.
    pose proof (leading_digits_append (fmt_u numeric) "]" (fmt_u_digits _)) as (Ln & _).
    pose proof (leading_digits_append (fmt_u i') "]" (fmt_u_digits _)) as (Li & _).
    pose proof (f_equal leading_digits H) as D.
    rewrite Ln, Li in D; cbn [leading_digits] in D.
    change (is_digit "]"%char) with false in D; cbv iota in D.
    rewrite !append_nil_r in D.
    rewrite (fmt_u_injective numeric i' Rnum Rid' D); reflexivity.
  - destruct Htail' as (t & ->); cbn [append] in H; discriminate.
  - subst tail'; cbn [append] in H; discriminate.
  - subst tail'; cbn [append] in H; discriminate.
Qed.

(** X5.  A Numeric NodeId is never printed like another NodeId: its text
    differs from the text of every other NodeId, of whatever kind. *)
Theorem numeric_nodeId_text_is_unambiguous (n n' : UA_NodeId) (numeric : Z)
    (Hnumeric : identifier n = Id_Numeric numeric)
    (Hn : fits_its_type n) (Hn' : fits_its_type n')
    (Hdistinct : n <> n') :
  nodeIdStr n <> nodeIdStr n'.
Proof.
  intros Hsame; apply Hdistinct.
  exact (numeric_nodeId_text_determines_it n n' numeric Hnumeric Hn Hn' Hsame).
Qed.

End RenderFacts2.

(** ** References that are not forward *)

Section InverseReferences.

Context {S : Type}.
Variable client : UA_Client S.
Variable fmt_2f : UA_Float -> string.
Variable UA_DateTime_toStruct : UA_DateTime -> UA_DateTimeStruct.

Import Render.

Local Abbreviation call := (browseAndReadNode client fmt_2f UA_DateTime_toStruct).
Local Abbreviation siblings := (browse_siblings client fmt_2f UA_DateTime_toStruct).
Local Abbreviation attributes := (read_attributes client).

Lemma siblings_all_inverse (fuel : nat) (refs : list UA_ReferenceDescription) (d : Z)
    (v : bool) (s : S) :
  (forall ref, In ref refs -> isForward ref = false) ->
  siblings fuel refs d v s = mkResult [] s (Some tt).
Proof.
  induction refs as [|ref refs IH]; intros H; [reflexivity|].
  rewrite siblings_cons, (H ref (or_introl eq_refl)).
  apply IH; intros x Hx; apply H; right; exact Hx.
Qed.

(** X6.  An Object or View node none of whose references is forward is
    rendered as a leaf: the call returns after its one browse, makes no
    recursive call, and prints the node's line; a verbose run at depth 0
    still prints the reference count, which counts the references that are
    not followed. *)
Theorem inverse_references_are_counted_not_followed (fuel : nat) (n : UA_NodeId) (d : Z)
    (v : bool) (s : S) (cls : UA_NodeClass) (bn : UA_QualifiedName)
    (Hattr : outcome (attributes n s) = Some (Some (cls, bn)))
    (Hcls : cls = UA_NODECLASS_OBJECT \/ cls = UA_NODECLASS_VIEW)
    (Hinverse :
       forall ref,
         In ref (references_to_browse
                   (fst (UA_Client_Service_browse client n (final (attributes n s))))) ->
         isForward ref = false) :
  let refs := references_to_browse
                (fst (UA_Client_Service_browse client n (final (attributes n s)))) in
  let r := call (Datatypes.S fuel) n d v s in
  outcome r = Some tt /\
  calls (trace r) = [(n, d)] /\ browsed (trace r) = [n] /\
  stdout (trace r) =
    name_text d bn ++ nodeId_text n ++ class_label cls ++ LF
    ++ (if v && (d =? 0) then found_line refs else "").
Proof.
  cbv zeta.
  pose proof (call_trace client fmt_2f UA_DateTime_toStruct fuel n d v s) as T.
  cbv zeta in T; rewrite Hattr in T.
  assert (Hv : cls <> UA_NODECLASS_VARIABLE) by (destruct Hcls; subst cls; discriminate).
  assert (Hb : browses_children cls = true) by (destruct Hcls; subst cls; reflexivity).
  rewrite Hb, (print_node_plain client fmt_2f UA_DateTime_toStruct n d cls bn _ Hv) in T.
  cbn [trace] in T.
  destruct (read_attributes_quiet client n s) as (Qs & Qc & Qb & _).
  destruct (references_to_browse _) as [|ref refs] eqn:R.
  - destruct T as (T & To & _); rewrite T, To.
    cbn [calls browsed stdout]; rewrite !calls_app, !browsed_app, !stdout_app, Qs, Qc, Qb.
    cbn [calls browsed stdout app append found_line].
    destruct (v && (d =? 0)); rewrite !append_nil_r; repeat split; reflexivity.
  - destruct T as (T & To & _); rewrite T, To.
    rewrite (siblings_all_inverse fuel (ref :: refs) (d + 1) v _ Hinverse).
    cbn [trace outcome calls browsed stdout].
    rewrite !calls_app, !browsed_app, !stdout_app, Qs, Qc, Qb.
    destruct (v && (d =? 0));
      cbn [calls browsed stdout app append found_line];
      rewrite ?append_nil_r, ?append_assoc; repeat split; reflexivity.
Qed.

End InverseReferences.


(** * The program *)

Module ProgramFacts.

Import Program Render.

(** Induction over an argument list, one or two arguments at a time. *)
Lemma arguments_ind (P : list string -> Prop) :
  P [] ->
  (forall arg rest,
     P rest -> (forall value rest', rest = value :: rest' -> P rest') -> P (arg :: rest)) ->
  forall arguments, P arguments.
Proof.
  intros Hnil Hcons arguments.
  enough (H : P arguments /\ (forall value rest', arguments = value :: rest' -> P rest'))
    by exact (proj1 H).
  induction arguments as [|arg rest (IH1 & IH2)].
  - split; [exact Hnil | discriminate].
  - split; [apply Hcons; assumption|].
    intros value rest' E; injection E as _ <-; exact IH1.
Qed.

Lemma printed_only_app (t1 t2 : list ProgramEvent) :
  printed_only t1 -> printed_only t2 -> printed_only (t1 ++ t2).
Proof. intros H1 H2; apply Forall_app; split; assumption. Qed.

Lemma printed_only_silent (t : list ProgramEvent) :
  printed_only t -> on_the_wire t = [] /\ configured_timeouts t = [] /\ connections t = [].
Proof.
  induction 1 as [|e t He _ (IH1 & IH2 & IH3)]; [repeat split|].
  destruct e; try contradiction; unfold on_the_wire in *; cbn; repeat split; assumption.
Qed.

Lemma print_help_printed_only (program_name : string) : printed_only (print_help program_name).
Proof. unfold print_help; repeat constructor. Qed.

Lemma on_the_wire_app (t1 t2 : list ProgramEvent) :
  on_the_wire (t1 ++ t2) = (on_the_wire t1 ++ on_the_wire t2)%list.
Proof. apply filter_app. Qed.

Lemma configured_timeouts_app (t1 t2 : list ProgramEvent) :
  configured_timeouts (t1 ++ t2) = (configured_timeouts t1 ++ configured_timeouts t2)%list.
Proof. induction t1 as [|[] t1 IH]; cbn; try assumption; [reflexivity | now rewrite IH]. Qed.

Lemma connections_app (t1 t2 : list ProgramEvent) :
  connections (t1 ++ t2) = (connections t1 ++ connections t2)%list.
Proof. induction t1 as [|[] t1 IH]; cbn; try assumption; [reflexivity | now rewrite IH]. Qed.

Lemma program_stdout_app (t1 t2 : list ProgramEvent) :
  program_stdout (t1 ++ t2) = program_stdout t1 ++ program_stdout t2.
Proof.
  induction t1 as [|e t1 IH]; [reflexivity|].
  destruct e as [text | | | | [] | |]; cbn [program_stdout app]; try exact IH;
    rewrite IH, append_assoc; reflexivity.
Qed.

Lemma program_stdout_in_session (t : list Event) :
  program_stdout (map InSession t) = stdout t.
Proof. induction t as [|[] t IH]; cbn; try assumption; [reflexivity | now rewrite IH]. Qed.

Lemma on_the_wire_in_session (t : list Event) :
  on_the_wire (map InSession t) = map InSession (round_trips t).
Proof.
  unfold on_the_wire, round_trips.
  induction t as [|e t IH]; [reflexivity|].
  cbn [map filter is_on_the_wire]; destruct (is_round_trip e); cbn [map]; now rewrite IH.
Qed.

Lemma configured_timeouts_in_session (t : list Event) :
  configured_timeouts (map InSession t) = [].
Proof. induction t; [reflexivity | exact IHt]. Qed.

Lemma connections_in_session (t : list Event) : connections (map InSession t) = [].
Proof. induction t; [reflexivity | exact IHt]. Qed.

Lemma banner_printed_only (options : Options) : printed_only (banner options).
Proof. unfold banner; destruct (verbose options); repeat constructor. Qed.

Lemma completed_printed_only (options : Options) : printed_only (completed options).
Proof. unfold completed; repeat constructor. Qed.

Section MainFacts.

Context {S : Type}.
Variable connection : UA_Connection S.
Variable client : UA_Client S.
Variable fmt_2f : UA_Float -> string.
Variable UA_DateTime_toStruct : UA_DateTime -> UA_DateTimeStruct.
Variable atoi : string -> Z.
Variable UA_StatusCode_name : UA_StatusCode -> string.
Variable UA_DateTime_now : UA_DateTime.

Local Abbreviation parse := (parse_arguments atoi).
Local Abbreviation program :=
  (main connection client fmt_2f UA_DateTime_toStruct atoi UA_StatusCode_name UA_DateTime_now).
Local Abbreviation browser :=
  (run_browser connection client fmt_2f UA_DateTime_toStruct UA_StatusCode_name
     UA_DateTime_now).
Local Abbreviation call := (browseAndReadNode client fmt_2f UA_DateTime_toStruct).
Local Abbreviation details := (connected UA_DateTime_toStruct UA_DateTime_now).
Local Abbreviation objectsFolder := (UA_NODEID_NUMERIC 0 UA_NS0ID_OBJECTSFOLDER).

Lemma connected_printed_only (options : Options) : printed_only (details options).
Proof. unfold connected; destruct (verbose options); repeat constructor. Qed.

(** *** The command line *)

Lemma parse_cons (program_name arg : string) (rest : list string) (options : Options) :
  parse program_name (arg :: rest) options =
  if String.eqb arg "-h" || String.eqb arg "--help" then Show_help
  else if String.eqb arg "-v" || String.eqb arg "--verbose" then
    parse program_name rest (with_verbose options)
  else if String.eqb arg "-t" || String.eqb arg "--timeout" then
    match rest with
    | value :: rest' =>
        if atoi value <=? 0
        then Rejected [Stdout ("Error: Timeout must be positive" ++ LF)]
        else parse program_name rest'
               (mkOptions (server_url options) (verbose options) (atoi value))
    | [] => Rejected [Stdout ("Error: Missing value for timeout" ++ LF)]
    end
  else if starts_with_dash arg then
    Rejected [Stdout ("Unknown option: " ++ arg ++ LF);
              Stdout ("Use " ++ program_name ++ " -h for help" ++ LF)]
  else parse program_name rest (mkOptions arg (verbose options) (timeout_ms options)).
Proof. reflexivity. Qed.

Ltac parse_step arg rest :=
  rewrite !parse_cons;
  destruct (String.eqb arg "-h" || String.eqb arg "--help");
    [| destruct (String.eqb arg "-v" || String.eqb arg "--verbose");
       [| destruct (String.eqb arg "-t" || String.eqb arg "--timeout");
          [destruct rest as [|value rest'];
             [| destruct (atoi value <=? 0) eqn:Hvalue]
          | destruct (starts_with_dash arg) eqn:Hdash]]].

(** What the loop leaves in the options comes from the arguments: a
    timeout is the one it started with or a positive [atoi] of an
    argument, a server URL the one it started with or an argument that
    does not start with a dash. *)
Lemma parse_settings (program_name : string) (arguments : list string) :
  forall options options',
    parse program_name arguments options = Proceed options' ->
    (timeout_ms options' = timeout_ms options \/
     exists value, In value arguments /\ timeout_ms options' = atoi value /\ 0 < atoi value) /\
    (server_url options' = server_url options \/
     In (server_url options') arguments /\ starts_with_dash (server_url options') = false).
Proof.
  induction arguments as [|arg rest IH1 IH2] using arguments_ind; intros o o'.
  - intros E; injection E as <-; split; left; reflexivity.
  - parse_step arg rest; try discriminate; intros E.
    + destruct (IH1 _ _ E) as ([T | (value & Hin & T)] & [U | (Hin' & U)]);
        (split; [first [left; exact T | right; exists value; split; [right; exact Hin | exact T]]
                | first [left; exact U | right; split; [right; exact Hin' | exact U]]]).
    + apply Z.leb_gt in Hvalue.
      destruct (IH2 value rest' eq_refl _ _ E) as ([T | (value' & Hin & T)] & [U | (Hin' & U)]);
        cbn [timeout_ms server_url] in *;
        (split; [first [right; exists value; split; [right; left; reflexivity|];
                        split; [exact T | exact Hvalue]
                       | right; exists value'; split; [right; right; exact Hin | exact T]]
                | first [left; exact U
                        | right; split; [right; right; exact Hin' | exact U]]]).
    + destruct (IH1 _ _ E) as ([T | (value & Hin & T)] & [U | (Hin' & U)]);
        cbn [timeout_ms server_url] in *;
        (split; [first [left; exact T | right; exists value; split; [right; exact Hin | exact T]]
                | first [right; split; [left; symmetry; exact U | rewrite U; exact Hdash]
                        | right; split; [right; exact Hin' | exact U]]]).
Qed.

(** An error message of the loop is output only. *)
Lemma parse_rejected_output (program_name : string) (arguments : list string) :
  forall options messages,
    parse program_name arguments options = Rejected messages -> printed_only messages.
Proof.
  induction arguments as [|arg rest IH1 IH2] using arguments_ind; intros o m.
  - discriminate.
  - parse_step arg rest; try discriminate;
      try (intros E; injection E as <-; repeat constructor).
    + apply IH1.
    + apply (IH2 value rest' eq_refl).
    + apply IH1.
Qed.

(** X7.  Arguments are taken from left to right and add up: when the
    arguments [before] are accepted and leave the options at [options'],
    the arguments [before ++ after] are parsed as [after] from [options'].
    In particular a server URL given last (any text that does not start
    with a dash) is the one used, whatever came before it, and the other
    settings are kept; and a request for help after accepted arguments is
    honoured. *)
Theorem later_arguments_override (program_name : string) (before after : list string)
    (options options' : Options)
    (Hbefore : parse program_name before options = Proceed options') :
  parse program_name (before ++ after) options = parse program_name after options' /\
  parse program_name (before ++ "-h" :: after) options = Show_help /\
  forall url, starts_with_dash url = false ->
    parse program_name (before ++ [url]) options
    = Proceed (mkOptions url (verbose options') (timeout_ms options')).
Proof.
  assert (Compose : forall after,
            parse program_name (before ++ after) options = parse program_name after options').
  { clear after; revert options options' Hbefore.
    induction before as [|arg rest IH1 IH2] using arguments_ind;
      intros o o' Hbefore after.
    - injection Hbefore as <-; reflexivity.
    - revert Hbefore; cbn [app]; parse_step arg rest; try discriminate; cbn [app];
        intros E.
      + apply IH1; exact E.
      + rewrite Hvalue; apply (IH2 value rest' eq_refl); exact E.
      + apply IH1; exact E. }
  split; [apply Compose|]. split; [rewrite Compose; reflexivity|].
  intros url Hurl; rewrite Compose, parse_cons, Hurl.
  destruct url as [|c url]; [reflexivity|].
  cbn [starts_with_dash] in Hurl.
  assert (E : forall tail, String.eqb (String c url) (String "-"%char tail) = false).
  { intros tail; cbn [String.eqb]; rewrite Hurl; reflexivity. }
  rewrite !E; reflexivity.
Qed.

(** The verbose flag changes nothing else in what the loop decides. *)
Lemma parse_with_verbose (program_name : string) (arguments : list string) :
  forall options,
    parse program_name arguments (with_verbose options)
    = match parse program_name arguments options with
      | Proceed options' => Proceed (with_verbose options')
      | other => other
      end.
Proof.
  induction arguments as [|arg rest IH1 IH2] using arguments_ind; intros o.
  - reflexivity.
  - parse_step arg rest; try reflexivity.
    + rewrite <- IH1; reflexivity.
    + apply (IH2 value rest' eq_refl (mkOptions (server_url o) (verbose o) (atoi value))).
    + apply (IH1 (mkOptions arg (verbose o) (timeout_ms o))).
Qed.

(** *** The session *)

(** The session, by cases on the connection and on the browse. *)
Lemma run_browser_run (fuel : nat) (options : Options) (s : S) :
  let c := UA_Client_connect connection (server_url options) (timeout_ms options) s in
  let before := ([ClientNew; ConfigTimeout (timeout_ms options)] ++ banner options
                 ++ [Connect (server_url options)])%list in
  let r := call fuel objectsFolder 0 (verbose options) (snd c) in
  browser fuel options s =
  if fst c =? UA_STATUSCODE_GOOD then
    match outcome r with
    | Some _ =>
        mkProgramResult
          (before ++ details options ++ map InSession (trace r)
           ++ [Disconnect; ClientDelete] ++ completed options)%list
          (snd (UA_Client_disconnect connection (final r))) (Some 0)
    | None =>
        mkProgramResult (before ++ details options ++ map InSession (trace r))%list
                        (final r) None
    end
  else
    mkProgramResult
      (before ++ [ Stdout ("Connection failed: " ++ UA_StatusCode_name (fst c)
                           ++ " (0x" ++ fmt_08X (fst c) ++ ")" ++ LF);
                   ClientDelete ])%list
      (snd c) (Some 1).
Proof.
  cbv zeta; unfold run_browser.
  destruct (UA_Client_connect connection (server_url options) (timeout_ms options) s)
    as [retval s1]; cbn [fst snd].
  destruct (retval =? UA_STATUSCODE_GOOD); cbn [negb]; [|reflexivity].
  destruct (outcome _); [|reflexivity].
  destruct (UA_Client_disconnect connection _) as [st s2]; cbn [snd].
  rewrite <- !app_assoc; reflexivity.
Qed.

(** What reaches the client library in a session, and how it ends. *)
Lemma run_browser_wire (fuel : nat) (options : Options) (s : S) :
  let r := browser fuel options s in
  let opening := [ClientNew; ConfigTimeout (timeout_ms options); Connect (server_url options)] in
  configured_timeouts (program_trace r) = [timeout_ms options] /\
  connections (program_trace r) = [server_url options] /\
  ((on_the_wire (program_trace r) = opening ++ [ClientDelete])%list /\ exit_code r = Some 1 \/
   exists session,
     Forall (fun e => is_round_trip e = true) session /\
     ((on_the_wire (program_trace r)
       = opening ++ map InSession session ++ [Disconnect; ClientDelete])%list /\
      exit_code r = Some 0 \/
      (on_the_wire (program_trace r) = opening ++ map InSession session)%list /\
      exit_code r = None)).
Proof.
  cbv zeta; rewrite run_browser_run; cbv zeta.
  destruct (printed_only_silent _ (banner_printed_only options)) as (Bw & Bt & Bc).
  destruct (printed_only_silent _ (connected_printed_only options)) as (Dw & Dt & Dc).
  destruct (printed_only_silent _ (completed_printed_only options)) as (Cw & Ct & Cc).
  set (r := call fuel objectsFolder 0 (verbose options) _).
  assert (Hsession : Forall (fun e => is_round_trip e = true) (round_trips (trace r))).
  { apply Forall_forall; intros e He; apply filter_In in He; exact (proj2 He). }
  destruct (_ =? UA_STATUSCODE_GOOD); [destruct (outcome r)|];
    cbn [program_trace exit_code];
    rewrite ?configured_timeouts_app, ?connections_app, ?on_the_wire_app,
      ?on_the_wire_in_session, ?configured_timeouts_in_session, ?connections_in_session,
      ?Bw, ?Bt, ?Bc, ?Dw, ?Dt, ?Dc, ?Cw, ?Ct, ?Cc.
  - split; [reflexivity|]. split; [reflexivity|].
    right; exists (round_trips (trace r)); split; [exact Hsession|].
    left; split; [|reflexivity].
    cbn [app]; rewrite ?app_nil_r; reflexivity.
  - split; [reflexivity|]. split; [reflexivity|].
    right; exists (round_trips (trace r)); split; [exact Hsession|].
    right; split; [|reflexivity].
    cbn [app]; rewrite ?app_nil_r; reflexivity.
  - split; [reflexivity|]. split; [reflexivity|].
    left; split; reflexivity.
Qed.

(** The program, by cases on its command line. *)
Lemma main_run (fuel : nat) (argv : list string) (s : S) :
  (printed_only (program_trace (program fuel argv s)) /\
   program_final (program fuel argv s) = s /\
   (exit_code (program fuel argv s) = Some 0 \/ exit_code (program fuel argv s) = Some 1)) \/
  exists options,
    parse (hd EmptyString argv) (tl argv) default_options = Proceed options /\
    program fuel argv s = browser fuel options s.
Proof.
  unfold main.
  destruct (List.length argv =? 1)%nat.
  { left; split; [apply print_help_printed_only | split; [reflexivity | left; reflexivity]]. }
  destruct (parse _ _ _) as [options | | messages] eqn:Hparse.
  - right; exists options; split; reflexivity.
  - left; split; [apply print_help_printed_only | split; [reflexivity | left; reflexivity]].
  - left; split; [exact (parse_rejected_output _ _ _ _ Hparse)|].
    split; [reflexivity | right; reflexivity].
Qed.

(** X8.  What the program does with the client library has one of four
    shapes.  For help or a rejected command line: nothing at all, the
    session state is untouched and the exit code is 0 or 1.  For a failed
    connection: create, configure, connect, delete, exit code 1.  For a
    browse that returns: create, configure, connect, the round trips of the
    browse, disconnect, delete, exit code 0.  For a browse cut short by the
    stack: the same up to the last round trip made.  So no request is sent
    before the connection or after the disconnection, the client is
    configured once and before it connects, and it is deleted whenever the
    program returns after creating it. *)
Theorem client_library_is_used_in_order (fuel : nat) (argv : list string) (s : S) :
  let r := program fuel argv s in
  let wire := on_the_wire (program_trace r) in
  (wire = [] /\ program_final r = s /\ (exit_code r = Some 0 \/ exit_code r = Some 1)) \/
  exists url ms,
    let opening := [ClientNew; ConfigTimeout ms; Connect url] in
    (wire = opening ++ [ClientDelete])%list /\ exit_code r = Some 1 \/
    exists session,
      Forall (fun e => is_round_trip e = true) session /\
      ((wire = opening ++ map InSession session ++ [Disconnect; ClientDelete])%list /\
       exit_code r = Some 0 \/
       (wire = opening ++ map InSession session)%list /\ exit_code r = None).
Proof.
  cbv zeta.
  destruct (main_run fuel argv s) as [(Hout & Hfinal & Hexit) | (options & _ & ->)].
  - left; split; [exact (proj1 (printed_only_silent _ Hout)) | split; assumption].
  - right; exists (server_url options), (timeout_ms options).
    exact (proj2 (proj2 (run_browser_wire fuel options s))).
Qed.

(** X9.  The program connects at most once, and with settings that come
    from its command line: the timeout the client is configured with is
    positive, and is 5000 or [atoi] of an argument; the server URL is the
    default one or an argument that does not start with a dash. *)
Theorem connection_settings_come_from_the_command_line (fuel : nat) (argv : list string)
    (s : S) :
  let t := program_trace (program fuel argv s) in
  (configured_timeouts t = [] /\ connections t = []) \/
  exists url ms,
    configured_timeouts t = [ms] /\ connections t = [url] /\ 0 < ms /\
    (ms = 5000 \/ exists value, In value (tl argv) /\ ms = atoi value) /\
    (url = "opc.tcp://10.0.0.128:4840" \/ In url (tl argv) /\ starts_with_dash url = false).
Proof.
  cbv zeta.
  destruct (main_run fuel argv s) as [(Hout & _) | (options & Hparse & ->)].
  - left; destruct (printed_only_silent _ Hout) as (_ & Ht & Hc); split; assumption.
  - right; exists (server_url options), (timeout_ms options).
    destruct (run_browser_wire fuel options s) as (Ht & Hc & _).
    destruct (parse_settings _ _ _ _ Hparse) as (T & U).
    cbn [timeout_ms server_url default_options] in T, U.
    split; [exact Ht|]. split; [exact Hc|].
    split; [destruct T as [-> | (value & _ & -> & Hpos)]; [reflexivity | exact Hpos]|].
    split.
    + destruct T as [T | (value & Hin & T & _)]; [left; exact T | right; exists value; auto].
    + exact U.
Qed.

(** The verbose flag changes what a session prints only. *)
Lemma run_browser_verbose (fuel : nat) (options : Options) (s : S) :
  exit_code (browser fuel (with_verbose options) s) = exit_code (browser fuel options s) /\
  program_final (browser fuel (with_verbose options) s)
  = program_final (browser fuel options s) /\
  on_the_wire (program_trace (browser fuel (with_verbose options) s))
  = on_the_wire (program_trace (browser fuel options s)).
Proof.
  rewrite !run_browser_run; cbv zeta.
  cbn [with_verbose server_url timeout_ms verbose].
  set (c := UA_Client_connect connection (server_url options) (timeout_ms options) s).
  destruct (printed_only_silent _ (banner_printed_only options)) as (Bw & _).
  destruct (printed_only_silent _ (banner_printed_only (with_verbose options))) as (Bw' & _).
  destruct (printed_only_silent _ (connected_printed_only options)) as (Dw & _).
  destruct (printed_only_silent _ (connected_printed_only (with_verbose options))) as (Dw' & _).
  destruct (printed_only_silent _ (completed_printed_only options)) as (Cw & _).
  destruct (printed_only_silent _ (completed_printed_only (with_verbose options))) as (Cw' & _).
  destruct (fst c =? UA_STATUSCODE_GOOD).
  2:{ cbn [program_trace exit_code program_final].
      rewrite !on_the_wire_app, Bw, Bw'; repeat split; reflexivity. }
  destruct (verbose_first_level client fmt_2f UA_DateTime_toStruct fuel objectsFolder 0 (snd c))
    as (Ho & Hf & before & found & after & Tq & Tl & Hfound); [lia|].
  assert (Same : outcome (call fuel objectsFolder 0 true (snd c))
                 = outcome (call fuel objectsFolder 0 (verbose options) (snd c)) /\
                 final (call fuel objectsFolder 0 true (snd c))
                 = final (call fuel objectsFolder 0 (verbose options) (snd c)) /\
                 round_trips (trace (call fuel objectsFolder 0 true (snd c)))
                 = round_trips (trace (call fuel objectsFolder 0 (verbose options) (snd c)))).
  { destruct (verbose options); [repeat split; reflexivity|].
    split; [exact Ho|]. split; [exact Hf|].
    assert (P : found = [] \/ exists text, found = [Printf text]).
    { destruct Hfound as [-> | (_ & k & ->)]; [left; reflexivity | right; eexists; reflexivity]. }
    rewrite Tq, Tl; exact (proj1 (printf_between before found after P)). }
  destruct Same as (So & Sf & Sr); rewrite So, Sf.
  destruct (outcome (call fuel objectsFolder 0 (verbose options) (snd c)));
    cbn [program_trace exit_code program_final];
    rewrite !on_the_wire_app, !on_the_wire_in_session, Sr, ?Bw, ?Bw', ?Dw, ?Dw', ?Cw, ?Cw';
    repeat split; reflexivity.
Qed.

(** X10.  Putting [-v] in front of a command line that has at least one
    argument changes only what is printed: the exit code, the session
    state the program leaves and everything that reaches the client
    library are the same.  (Without another argument it is not so: the
    bare program prints help, while [-v] alone connects to the default
    server.) *)
Theorem verbose_flag_changes_the_output_only (fuel : nat) (program_name : string)
    (arguments : list string) (s : S) (Harguments : arguments <> []) :
  let quiet := program fuel (program_name :: arguments) s in
  let loud := program fuel (program_name :: "-v" :: arguments) s in
  exit_code loud = exit_code quiet /\ program_final loud = program_final quiet /\
  on_the_wire (program_trace loud) = on_the_wire (program_trace quiet).
Proof.
  cbv zeta; unfold main.
  destruct arguments as [|arg rest]; [contradiction|].
  cbn [List.length Nat.eqb hd tl].
  change (parse program_name ("-v" :: arg :: rest) default_options)
    with (parse program_name (arg :: rest) (with_verbose default_options)).
  rewrite parse_with_verbose.
  destruct (parse program_name (arg :: rest) default_options) as [options | | messages];
    [apply run_browser_verbose | repeat split; reflexivity ..].
Qed.

(** With arguments that are accepted, the program is the session. *)
Lemma main_proceeds (fuel : nat) (argv : list string) (s : S) (options : Options) :
  List.length argv <> 1%nat ->
  parse (hd EmptyString argv) (tl argv) default_options = Proceed options ->
  program fuel argv s = browser fuel options s.
Proof.
  intros Hargc Hparse; unfold main.
  apply Nat.eqb_neq in Hargc; rewrite Hargc, Hparse; reflexivity.
Qed.

(** X11.  A server that accepts the connection but does not let the
    Objects folder be read (either attribute) makes the program print its
    header and its footer with nothing in between, and return 0: the
    failure is not reported. *)
Theorem unreadable_objects_folder_is_not_reported (fuel : nat) (argv : list string) (s : S)
    (options : Options)
    (Hargc : List.length argv <> 1%nat)
    (Hparse : parse (hd EmptyString argv) (tl argv) default_options = Proceed options)
    (Hconnect :
       fst (UA_Client_connect connection (server_url options) (timeout_ms options) s)
       = UA_STATUSCODE_GOOD)
    (Hread :
       let s1 := snd (UA_Client_connect connection (server_url options)
                        (timeout_ms options) s) in
       is_good (fst (fst (UA_Client_readNodeClassAttribute client objectsFolder s1))) = false \/
       is_good (fst (fst (UA_Client_readBrowseNameAttribute client objectsFolder
                            (snd (UA_Client_readNodeClassAttribute client objectsFolder s1)))))
       = false) :
  let r := program (Datatypes.S fuel) argv s in
  exit_code r = Some 0 /\
  program_stdout (program_trace r)
  = program_stdout (banner options ++ details options ++ completed options).
Proof.
  cbv zeta in *; rewrite (main_proceeds _ _ _ _ Hargc Hparse), run_browser_run; cbv zeta.
  rewrite Hconnect, Z.eqb_refl.
  apply (read_attributes_failure client) in Hread.
  pose proof (call_trace client fmt_2f UA_DateTime_toStruct fuel objectsFolder 0
                (verbose options)
                (snd (UA_Client_connect connection (server_url options)
                        (timeout_ms options) s))) as T.
  cbv zeta in T; rewrite Hread in T; destruct T as (T & O & _).
  rewrite O, T; cbn [exit_code program_trace]; split; [reflexivity|].
  destruct (read_attributes_quiet client objectsFolder
              (snd (UA_Client_connect connection (server_url options)
                      (timeout_ms options) s))) as (Q & _).
  rewrite !program_stdout_app, program_stdout_in_session.
  cbn [stdout]; rewrite Q.
  cbn [program_stdout]; rewrite ?append_nil_r, ?append_assoc; reflexivity.
Qed.

(** X12.  Without the verbose flag, a session whose browse returns prints
    the header with the server URL, then the pre-order listing of the tree
    walked from the Objects folder at depth 0, then the footer with the
    server URL again, and nothing else. *)
Theorem quiet_session_prints_header_listing_footer (fuel : nat) (argv : list string) (s : S)
    (options : Options)
    (Hargc : List.length argv <> 1%nat)
    (Hparse : parse (hd EmptyString argv) (tl argv) default_options = Proceed options)
    (Hquiet : verbose options = false)
    (Hconnect :
       fst (UA_Client_connect connection (server_url options) (timeout_ms options) s)
       = UA_STATUSCODE_GOOD)
    (Hreturns :
       outcome (call fuel objectsFolder 0 false
                  (snd (UA_Client_connect connection (server_url options)
                          (timeout_ms options) s)))
       = Some tt) :
  exists forest s',
    visit client fmt_2f UA_DateTime_toStruct fuel objectsFolder 0
      (snd (UA_Client_connect connection (server_url options) (timeout_ms options) s))
    = Some (forest, s') /\
    exit_code (program fuel argv s) = Some 0 /\
    program_stdout (program_trace (program fuel argv s))
    = "=============================================" ++ LF
      ++ "   UAConsole - OPC UA Server Browser" ++ LF
      ++ "=============================================" ++ LF ++ LF
      ++ "Connecting to " ++ server_url options ++ "..." ++ LF
      ++ "Connected successfully!" ++ LF ++ LF
      ++ "=== RECURSIVE BROWSING OF OBJECTS FOLDER ===" ++ LF
      ++ join (listing forest)
      ++ LF ++ "=== BROWSING COMPLETED ===" ++ LF
      ++ "Server URL: " ++ server_url options ++ LF
      ++ "Disconnected from server" ++ LF.
Proof.
  rewrite (main_proceeds _ _ _ _ Hargc Hparse), run_browser_run; cbv zeta.
  rewrite Hconnect, Z.eqb_refl, Hquiet, Hreturns.
  destruct (quiet_output_is_listing client fmt_2f UA_DateTime_toStruct fuel objectsFolder 0 _
              Hreturns) as (forest & Hwalk & Hout).
  exists forest, (final (call fuel objectsFolder 0 false
                           (snd (UA_Client_connect connection (server_url options)
                                   (timeout_ms options) s)))).
  split; [exact Hwalk|]. split; [reflexivity|].
  cbn [program_trace].
  rewrite !program_stdout_app, program_stdout_in_session, Hout.
  unfold banner, connected, completed; rewrite Hquiet.
  cbn [app program_stdout]; rewrite ?append_nil_r, ?append_assoc; reflexivity.
Qed.

End MainFacts.

End ProgramFacts.

(** * The added properties on the examples *)

Module OnProgramExamples.

Import Program Examples ProgramExamples Render.

(** The Objects folder of the looping server is such a set by itself: a
    run from it returns on no stack, and with a stack of nine calls it
    makes a call at depth 8. *)
Lemma forward_cycle_is_followed_without_end_witness :
  forward_cycle looping (fun n => n = node 85) /\
  outcome (browse_looping 9 (node 85) 0 false tt) = None /\
  exists n', In (n', 8) (calls (trace (browse_looping 9 (node 85) 0 false tt))).
Proof.
  assert (Hcycle : forward_cycle looping (fun n => n = node 85)).
  { intros n s ->; split.
    - exists UA_NODECLASS_OBJECT, (mkQualifiedName 0 "Objects"); split; reflexivity.
    - exists (forward 85); split; [left; reflexivity | split; reflexivity]. }
  destruct (forward_cycle_is_followed_without_end looping two_decimals calendar
              (fun n => n = node 85) Hcycle (node 85) eq_refl 0 false tt) as (Hnever & Hdeep).
  split; [exact Hcycle|]. split; [exact (Hnever 9%nat) | exact (Hdeep 8%nat)].
Defined.

(** The Objects folder, Numeric 85, and the node whose String identifier
    is 85 are printed differently. *)
Lemma numeric_nodeId_text_is_unambiguous_witness :
  nodeIdStr (node 85) = " [ns=0;i=85]" /\
  nodeIdStr (node 85) <> nodeIdStr (UA_NODEID_STRING 0 "85").
Proof.
  split; [reflexivity|].
  apply (RenderFacts2.numeric_nodeId_text_is_unambiguous (node 85) (UA_NODEID_STRING 0 "85")
           85 eq_refl).
  - split; [cbn; lia | cbn; lia].
  - split; [cbn; lia | exact I].
  - discriminate.
Defined.

(** Tank only refers back to the Objects folder: it is printed as a leaf,
    and a verbose run from it counts the one reference. *)
Lemma inverse_references_are_counted_not_followed_witness :
  calls (trace (browse_plant 1 (node 3) 0 true tt)) = [(node 3, 0)] /\
  stdout (trace (browse_plant 1 (node 3) 0 true tt))
  = "Tank  [ns=0;i=3] (Object)" ++ LF ++ "  Found 1 references to browse" ++ LF.
Proof.
  pose proof (inverse_references_are_counted_not_followed plant two_decimals calendar 0
                (node 3) 0 true tt UA_NODECLASS_OBJECT (mkQualifiedName 0 "Tank")
                eq_refl (or_introl eq_refl)) as H.
  cbv zeta in H.
  destruct H as (_ & Hcalls & _ & Hout).
  - intros ref [<- | []]; reflexivity.
  - split; [exact Hcalls | exact Hout].
Defined.

(** After a timeout and the verbose flag, a URL given last is the one
    used, with both kept. *)
Lemma later_arguments_override_witness :
  plant_parse ["-t"; "250"; "-v"; plant_url] default_options
  = Proceed (mkOptions plant_url true 250) /\
  plant_parse ["-t"; "250"; "-v"; "-h"; "--bogus"] default_options = Show_help.
Proof.
  pose proof (ProgramFacts.later_arguments_override atoi "uaconsole" ["-t"; "250"; "-v"]
                ["--bogus"] default_options
                (mkOptions "opc.tcp://10.0.0.128:4840" true 250) eq_refl) as (_ & Hhelp & Hurl).
  split; [exact (Hurl plant_url eq_refl) | exact Hhelp].
Defined.

(** The plant, browsed with and without [-v]. *)
Lemma verbose_flag_changes_the_output_only_witness :
  exit_code (plant_main 2 ["uaconsole"; "-v"; plant_url] tt)
  = exit_code (plant_main 2 ["uaconsole"; plant_url] tt) /\
  on_the_wire (program_trace (plant_main 2 ["uaconsole"; "-v"; plant_url] tt))
  = on_the_wire (program_trace (plant_main 2 ["uaconsole"; plant_url] tt)).
Proof.
  pose proof (ProgramFacts.verbose_flag_changes_the_output_only plant_connection plant
                two_decimals calendar atoi status_name new_year_2025 2 "uaconsole"
                [plant_url] tt ltac:(discriminate)) as H.
  cbv zeta in H.
  destruct H as (Hexit & _ & Hwire).
  split; [exact Hexit | exact Hwire].
Defined.

(** The locked server: header, footer, exit code 0. *)
Lemma unreadable_objects_folder_is_not_reported_witness :
  exit_code (locked_main 1 ["uaconsole"; vault_url] tt) = Some 0 /\
  program_stdout (program_trace (locked_main 1 ["uaconsole"; vault_url] tt))
  = "=============================================" ++ LF
    ++ "   UAConsole - OPC UA Server Browser" ++ LF
    ++ "=============================================" ++ LF ++ LF
    ++ "Connecting to opc.tcp://vault:4840..." ++ LF
    ++ "Connected successfully!" ++ LF ++ LF
    ++ "=== RECURSIVE BROWSING OF OBJECTS FOLDER ===" ++ LF
    ++ LF ++ "=== BROWSING COMPLETED ===" ++ LF
    ++ "Server URL: opc.tcp://vault:4840" ++ LF
    ++ "Disconnected from server" ++ LF.
Proof.
  exact (ProgramFacts.unreadable_objects_folder_is_not_reported looping_connection locked
           two_decimals calendar atoi status_name new_year_2025 0 ["uaconsole"; vault_url] tt
           (mkOptions vault_url false 5000)
           ltac:(discriminate) eq_refl eq_refl (or_introl eq_refl)).
Defined.

(** The quiet session on the plant prints the header, the six lines of the
    plant and the footer. *)
Lemma quiet_session_prints_header_listing_footer_witness :
  program_stdout (program_trace (plant_main 2 ["uaconsole"; plant_url] tt))
  = "=============================================" ++ LF
    ++ "   UAConsole - OPC UA Server Browser" ++ LF
    ++ "=============================================" ++ LF ++ LF
    ++ "Connecting to opc.tcp://plant:4840..." ++ LF
    ++ "Connected successfully!" ++ LF ++ LF
    ++ "=== RECURSIVE BROWSING OF OBJECTS FOLDER ===" ++ LF
    ++ join (map (fun line => line ++ LF) plant_lines)
    ++ LF ++ "=== BROWSING COMPLETED ===" ++ LF
    ++ "Server URL: opc.tcp://plant:4840" ++ LF
    ++ "Disconnected from server" ++ LF.
Proof.
  destruct (ProgramFacts.quiet_session_prints_header_listing_footer plant_connection plant
              two_decimals calendar atoi status_name new_year_2025 2 ["uaconsole"; plant_url]
              tt (mkOptions plant_url false 5000)
              ltac:(discriminate) eq_refl eq_refl eq_refl eq_refl)
    as (forest & s' & Hwalk & _ & Hout).
  cbv in Hwalk; injection Hwalk as <- <-.
  exact Hout.
Defined.

End OnProgramExamples.
